(** * PiCar utilities ([lib/my_picar_utils.py]): model and properties

    The module defines three classes:
    - [PicarUnitConverter]: affine conversions between world and picar units;
    - [MyPicarController]: speed, steering and direction from the pose error;
    - [PicarHardwareInterface]: the calls sent to the front and back wheels.

    Python floats are IEEE 754 binary64 numbers and are modelled by Rocq's
    primitive floats; Python [int]s by [Z].  A method that may raise returns a
    [result]; a method that acts on an object runs in the state monad [M],
    where an exception keeps the effects that happened before it. *)

From Stdlib Require Import ZArith List String Bool Lia Floats QArith Field.
Import ListNotations.

#[local] Set Warnings "-inexact-float".

Set Implicit Arguments.

(* ===================================================================== *)
(** * Python runtime: exceptions, results, name and attribute lookup      *)
(* ===================================================================== *)

Module Py.

(** The exceptions the module can raise. *)
Inductive exn : Type :=
| NameError (name : string)
| AttributeError (cls attr : string)
| TypeError
| ValueError
| OverflowError
| ZeroDivisionError
| OSError.

(** Outcome of evaluating an expression: a value or a raised exception. *)
Inductive result (A : Type) : Type :=
| Ok (a : A)
| Raise (e : exn).

Arguments Ok {A} a.
Arguments Raise {A} e.

Definition rbind {A B} (r : result A) (k : A -> result B) : result B :=
  match r with
  | Ok a => k a
  | Raise e => Raise e
  end.

(** Statements acting on an object of state [S].  The state comes back also
    when an exception is raised: what was done before it stays done. *)
Definition M (S A : Type) : Type := S -> result A * S.

Definition ret {S A} (a : A) : M S A := fun s => (Ok a, s).

Definition raise {S A} (e : exn) : M S A := fun s => (Raise e, s).

Definition bind {S A B} (c : M S A) (k : A -> M S B) : M S B :=
  fun s =>
    match c s with
    | (Ok a, s') => k a s'
    | (Raise e, s') => (Raise e, s')
    end.

Definition get {S} : M S S := fun s => (Ok s, s).

Definition modify {S} (f : S -> S) : M S unit := fun s => (Ok tt, f s).

Definition lift {S A} (r : result A) : M S A := fun s => (r, s).

(** ** Floats *)

(** [x / y] on floats: Python raises when the divisor is zero (of either
    sign), whatever the dividend. *)
Definition truediv (x y : float) : result float :=
  if (y =? 0)%float then Raise ZeroDivisionError else Ok (x / y)%float.

(** [int(x)] on a float: truncation toward zero; NaN and the infinities
    raise.  A finite float is [(-1)^s * m * 2^e]; a negative shift drops the
    fractional bits of the magnitude. *)
Definition int (x : float) : result Z :=
  match Prim2SF x with
  | S754_zero _ => Ok 0%Z
  | S754_finite s m e => Ok (cond_Zopp s (Z.shiftl (Zpos m) e))
  | S754_infinity _ => Raise OverflowError
  | S754_nan => Raise ValueError
  end.

(** [math.pi], the binary64 number nearest to the circle constant. *)
Definition pi : float := 0x1.921fb54442d18p+1%float.

(** ** Names *)

Definition mem (name : string) (names : list string) : bool :=
  existsb (String.eqb name) names.

(** Lookup in a dictionary with string keys. *)
Fixpoint assoc {V : Type} (name : string) (d : list (string * V)) : option V :=
  match d with
  | [] => None
  | (k, v) :: d' => if String.eqb name k then Some v else assoc name d'
  end.

(** The names in [builtins] (CPython 3). *)
Definition builtin_names : list string :=
  [ "ArithmeticError"; "AssertionError"; "AttributeError"; "BaseException";
    "BaseExceptionGroup"; "BlockingIOError"; "BrokenPipeError"; "BufferError";
    "BytesWarning"; "ChildProcessError"; "ConnectionAbortedError";
    "ConnectionError"; "ConnectionRefusedError"; "ConnectionResetError";
    "DeprecationWarning"; "EOFError"; "Ellipsis"; "EncodingWarning";
    "EnvironmentError"; "Exception"; "ExceptionGroup"; "False";
    "FileExistsError"; "FileNotFoundError"; "FloatingPointError";
    "FutureWarning"; "GeneratorExit"; "IOError"; "ImportError";
    "ImportWarning"; "IndentationError"; "IndexError"; "InterruptedError";
    "IsADirectoryError"; "KeyError"; "KeyboardInterrupt"; "LookupError";
    "MemoryError"; "ModuleNotFoundError"; "NameError"; "None";
    "NotADirectoryError"; "NotImplemented"; "NotImplementedError"; "OSError";
    "OverflowError"; "PendingDeprecationWarning"; "PermissionError";
    "ProcessLookupError"; "RecursionError"; "ReferenceError";
    "ResourceWarning"; "RuntimeError"; "RuntimeWarning";
    "StopAsyncIteration"; "StopIteration"; "SyntaxError"; "SyntaxWarning";
    "SystemError"; "SystemExit"; "TabError"; "TimeoutError"; "True";
    "TypeError"; "UnboundLocalError"; "UnicodeDecodeError";
    "UnicodeEncodeError"; "UnicodeError"; "UnicodeTranslateError";
    "UnicodeWarning"; "UserWarning"; "ValueError"; "Warning";
    "ZeroDivisionError"; "__build_class__"; "__debug__"; "__doc__";
    "__import__"; "__loader__"; "__name__"; "__package__"; "__spec__";
    "abs"; "aiter"; "all"; "anext"; "any"; "ascii"; "bin"; "bool";
    "breakpoint"; "bytearray"; "bytes"; "callable"; "chr"; "classmethod";
    "compile"; "complex"; "copyright"; "credits"; "delattr"; "dict"; "dir";
    "divmod"; "enumerate"; "eval"; "exec"; "exit"; "filter"; "float";
    "format"; "frozenset"; "getattr"; "globals"; "hasattr"; "hash"; "help";
    "hex"; "id"; "input"; "int"; "isinstance"; "issubclass"; "iter"; "len";
    "license"; "list"; "locals"; "map"; "max"; "memoryview"; "min"; "next";
    "object"; "oct"; "open"; "ord"; "pow"; "print"; "property"; "quit";
    "range"; "repr"; "reversed"; "round"; "set"; "setattr"; "slice";
    "sorted"; "staticmethod"; "str"; "sum"; "super"; "tuple"; "type"; "vars";
    "zip" ]%string.

(** The names bound at the top level of [my_picar_utils.py]: its imports
    (lines 14-23), its classes and functions, and the names every module
    has. *)
Definition module_names : list string :=
  [ "__name__"; "__doc__"; "__package__"; "__loader__"; "__spec__";
    "__file__"; "__cached__"; "__builtins__";
    "sys"; "sleep"; "monotonic";
    "sin"; "cos"; "tan"; "atan"; "atan2"; "pi";
    "norm"; "np";
    "sign"; "angle_a2b"; "within_pi"; "clip";
    "myPID"; "perspectives"; "CartesianPose"; "BicyclePose"; "BicycleModel";
    "PicarHardwareInterface"; "test_PicarHardwareInterface";
    "MyPicarController"; "test_MyPicarController";
    "PicarUnitConverter"; "main" ]%string.

(** Where a bare name inside a method body is found. *)
Inductive binding : Type :=
| Local (name : string)
| Global (name : string)
| Builtin (name : string).

(** A bare name is looked up in the function's locals, then in the module,
    then in [builtins].  The attributes and methods of [self] are not in
    scope under their bare names. *)
Definition load_name (locals : list string) (name : string) : result binding :=
  if mem name locals then Ok (Local name)
  else if mem name module_names then Ok (Global name)
  else if mem name builtin_names then Ok (Builtin name)
  else Raise (NameError name).

End Py.

Import Py.

Declare Scope res_scope.
Delimit Scope res_scope with res.
Declare Scope py_scope.
Delimit Scope py_scope with py.

Notation "x <- c ;; k" := (rbind c (fun x => k))
  (at level 61, c at next level, right associativity) : res_scope.
Notation "x <- c ;; k" := (bind c (fun x => k))
  (at level 61, c at next level, right associativity) : py_scope.
Notation "c ;; k" := (bind c (fun _ => k))
  (at level 61, right associativity) : py_scope.

(* ===================================================================== *)
(** * [PicarUnitConverter] (lines 188-233)                                *)
(* ===================================================================== *)

(** The conversions only use [+], [-], [*] and [/], so they run on any
    Python number type.  [+], [-] and [*] do not raise on floats or on
    fractions; [/] raises [ZeroDivisionError] on a zero divisor. *)
Class Number (A : Type) : Type := {
  add : A -> A -> A;
  sub : A -> A -> A;
  mul : A -> A -> A;
  div : A -> A -> result A
}.

Declare Scope num_scope.
Delimit Scope num_scope with num.
Infix "+" := add : num_scope.
Infix "-" := sub : num_scope.
Infix "*" := mul : num_scope.

(** Python [float]. *)
#[export] Instance float_Number : Number float := {|
  add := PrimFloat.add;
  sub := PrimFloat.sub;
  mul := PrimFloat.mul;
  div := Py.truediv
|}.

(** [fractions.Fraction]: exact rational arithmetic. *)
#[export] Instance Fraction_Number : Number Q := {|
  add := Qplus;
  sub := Qminus;
  mul := Qmult;
  div := fun x y => if Qeq_bool y 0 then Raise ZeroDivisionError else Ok (x / y)%Q
|}.

Module Converter.

Section Methods.

Context {A : Type} {num : Number A}.

(** What calling an object bound at module level or in [builtins] with one
    argument returns; those objects are defined outside this class. *)
Variable call_external : string -> A -> result A.

(** The instance attributes, all set by [__init__]:
    [World = m*Picar + b]. *)
Record PicarUnitConverter : Type := {
  world_speed_scale : A;
  world_angle_scale : A;
  world_time_scale : A;
  world_speed_offset : A;
  world_angle_offset : A
}.

(** [__init__(self, speed_slope, angle_slope, time_slope=1,
    speed_intercept=0, angle_intercept=0)]. *)
Definition __init__ (speed_slope angle_slope time_slope speed_intercept angle_intercept : A)
  : PicarUnitConverter :=
  {| world_speed_scale := speed_slope;
     world_angle_scale := angle_slope;
     world_time_scale := time_slope;
     world_speed_offset := speed_intercept;
     world_angle_offset := angle_intercept |}.

Definition class_name : string := "PicarUnitConverter".

(** The methods defined in the class body. *)
Definition method_names : list string :=
  [ "__init__";
    "speed_picar2world"; "angle_picar2world"; "time_picar2world"; "length_picar2world";
    "speed_world2picar"; "angle_world2picar"; "time_world2picar"; "length_world2picar"
  ]%string.

(** The instance dictionary. *)
Definition instance_dict (self : PicarUnitConverter) : list (string * A) :=
  [ ("world_speed_scale", self.(world_speed_scale));
    ("world_angle_scale", self.(world_angle_scale));
    ("world_time_scale", self.(world_time_scale));
    ("world_speed_offset", self.(world_speed_offset));
    ("world_angle_offset", self.(world_angle_offset)) ]%string.

(** What [self.name] evaluates to. *)
Inductive attr : Type :=
| Data (v : A)
| BoundMethod (name : string).

(** [self.name]: the instance dictionary, then the class; otherwise
    [AttributeError].  (The attributes every object inherits, all spelled
    [__x__], are left out: no method refers to one.) *)
Definition getattr (self : PicarUnitConverter) (name : string) : result attr :=
  match assoc name (instance_dict self) with
  | Some v => Ok (Data v)
  | None =>
      if mem name method_names then Ok (BoundMethod name)
      else Raise (AttributeError class_name name)
  end.

(** An attribute used as an operand of [*] or [/]: a bound method is not a
    number. *)
Definition operand (a : attr) : result A :=
  match a with
  | Data v => Ok v
  | BoundMethod _ => Raise TypeError
  end.

(** [f(x)] for a bare name [f]: the locals of a conversion method are
    [self] and a number, neither of which is callable. *)
Definition call (f : binding) (x : A) : result A :=
  match f with
  | Local _ => Raise TypeError
  | Global name | Builtin name => call_external name x
  end.

Local Open Scope num_scope.
Local Open Scope res_scope.

Definition speed_picar2world (self : PicarUnitConverter) (picar_speed : A) : result A :=
  Ok (self.(world_speed_scale) * picar_speed + self.(world_speed_offset)).

Definition angle_picar2world (self : PicarUnitConverter) (picar_angle : A) : result A :=
  Ok (self.(world_angle_scale) * picar_angle + self.(world_angle_offset)).

Definition time_picar2world (self : PicarUnitConverter) (picar_time : A) : result A :=
  Ok (self.(world_time_scale) * picar_time).

(** Line 219: [return speed_picar2world(picar_length) * self.time_scale].
    The callee is a bare name, not [self.speed_picar2world], and the
    attribute read is [time_scale], not [world_time_scale]. *)
Definition length_picar2world (self : PicarUnitConverter) (picar_length : A) : result A :=
  f <- load_name ["self"; "picar_length"]%string "speed_picar2world" ;;
  v <- call f picar_length ;;
  t <- getattr self "time_scale" ;;
  t <- operand t ;;
  Ok (v * t).

Definition speed_world2picar (self : PicarUnitConverter) (world_speed : A) : result A :=
  div (world_speed - self.(world_speed_offset)) self.(world_speed_scale).

Definition angle_world2picar (self : PicarUnitConverter) (world_angle : A) : result A :=
  div (world_angle - self.(world_angle_offset)) self.(world_angle_scale).

Definition time_world2picar (self : PicarUnitConverter) (world_time : A) : result A :=
  div world_time self.(world_time_scale).

(** Line 233: [return speed_world2picar(world_length) / self.time_scale]. *)
Definition length_world2picar (self : PicarUnitConverter) (world_length : A) : result A :=
  f <- load_name ["self"; "world_length"]%string "speed_world2picar" ;;
  v <- call f world_length ;;
  t <- getattr self "time_scale" ;;
  t <- operand t ;;
  div v t.

(** What the docstring of [length_picar2world] derives, written with the
    instance's own method and its own time scale:
    [speed_picar2world(picar_length) * time_picar2world(1)]. *)
Definition length_picar2world_intended (self : PicarUnitConverter) (picar_length : A) : result A :=
  v <- speed_picar2world self picar_length ;;
  Ok (v * self.(world_time_scale)).

Definition length_world2picar_intended (self : PicarUnitConverter) (world_length : A) : result A :=
  v <- speed_world2picar self world_length ;;
  div v self.(world_time_scale).

End Methods.

Arguments PicarUnitConverter A : clear implicits.

End Converter.

(* ===================================================================== *)
(** * [MyPicarController] (lines 132-177)                                 *)
(* ===================================================================== *)

Module Controller.

Section Methods.

(** The PID loop class [myPID] of module [my_pid], which is not part of
    the sources at hand: the state of one loop, its constructor from the
    three gains, and its method [input(error, dt)], which returns the
    correction (or raises) and updates the loop. *)
Variable myPID : Type.
Variable new_myPID : forall (Kp Ki Kd : float), myPID.
Variable pid_input : float -> float -> M myPID float.

(** [math.atan], and [within_pi] of module [helpers]. *)
Variable atan : float -> float.
Variable within_pi : float -> result float.

(** The three loops are three objects.  A controller built from one loop
    passed twice, or from loops its caller goes on using, is the matter
    of module [Shared] below. *)
Record MyPicarController : Type := {
  rho_controller : myPID;
  alpha_controller : myPID;
  beta_controller : myPID
}.

Definition or_else (given : option myPID) (default : myPID) : myPID :=
  match given with
  | Some p => p
  | None => default
  end.

(** [__init__(self, rho_controller=None, alpha_controller=None,
    beta_controller=None, kpr=1, kpa=0, kpb=0, kdr=0, kda=0, kdb=0,
    kir=0, kia=0, kib=0)]. *)
Definition __init__ (rho alpha beta : option myPID)
  (kpr kpa kpb kdr kda kdb kir kia kib : float) : MyPicarController :=
  {| rho_controller := or_else rho (new_myPID kpr kir kdr);
     alpha_controller := or_else alpha (new_myPID kpa kia kda);
     beta_controller := or_else beta (new_myPID kpb kib kdb) |}.

(** A call on one of the three loops, seen from the controller. *)
Definition on_rho {A} (c : M myPID A) : M MyPicarController A :=
  fun self =>
    let (r, p) := c self.(rho_controller) in
    (r, {| rho_controller := p;
           alpha_controller := self.(alpha_controller);
           beta_controller := self.(beta_controller) |}).

Definition on_alpha {A} (c : M myPID A) : M MyPicarController A :=
  fun self =>
    let (r, p) := c self.(alpha_controller) in
    (r, {| rho_controller := self.(rho_controller);
           alpha_controller := p;
           beta_controller := self.(beta_controller) |}).

Definition on_beta {A} (c : M myPID A) : M MyPicarController A :=
  fun self =>
    let (r, p) := c self.(beta_controller) in
    (r, {| rho_controller := self.(rho_controller);
           alpha_controller := self.(alpha_controller);
           beta_controller := p |}).

Local Open Scope float_scope.
Local Open Scope py_scope.

Definition SPEED (rho dt : float) : M MyPicarController float :=
  on_rho (pid_input rho dt).

(** Lines 157-168.  There is no test of [s] before the division. *)
Definition STEER (speed alpha beta L dt : float) : M MyPicarController float :=
  a <- on_alpha (pid_input alpha dt) ;;
  b <- on_beta (pid_input beta dt) ;;
  let dh := a + b in
  let s := abs speed in
  q <- lift (truediv (dh * L) s) ;;
  let steer := atan q in
  lift (within_pi steer).

(** Lines 174-177: [abs(alpha) > (pi/2 + 1e-4)]. *)
Definition DIRECTION (alpha dt : float) : M MyPicarController bool :=
  if pi / 2 + 1e-4 <? abs alpha then ret true else ret false.

End Methods.

End Controller.

(* ===================================================================== *)
(** * [MyPicarController] with its loops held by reference (lines 137-177) *)
(* ===================================================================== *)

(** [__init__] stores the loops it is given, not copies of them (lines
    146-148): a loop passed for two roles is one object with two names.
    Here the loops live in a store and the controller holds their
    addresses. *)
Module Shared.

Section Methods.

Variable myPID : Type.
Variable new_myPID : forall (Kp Ki Kd : float), myPID.
Variable pid_input : float -> float -> M myPID float.
Variable atan : float -> float.
Variable within_pi : float -> result float.

(** The identity of an object. *)
Definition ref : Type := nat.

(** The [myPID] objects of the program: the state of the object at each
    address, and the first address not yet given out.  What [objects] has
    at an address not given out is not read. *)
Record heap : Type := {
  objects : ref -> myPID;
  next : ref
}.

Definition store (p : ref) (state : myPID) (objects : ref -> myPID) : ref -> myPID :=
  fun q => if Nat.eqb q p then state else objects q.

(** [myPID(Kp=Kp, Ki=Ki, Kd=Kd)]: a new object, at a new address. *)
Definition new (Kp Ki Kd : float) : M heap ref :=
  fun h =>
    (Ok h.(next),
     {| objects := store h.(next) (new_myPID Kp Ki Kd) h.(objects);
        next := S h.(next) |}).

(** [p.input(error, dt=dt)]: the call updates the object at [p]. *)
Definition input (p : ref) (error dt : float) : M heap float :=
  fun h =>
    let (r, state) := pid_input error dt (h.(objects) p) in
    (r, {| objects := store p state h.(objects); next := h.(next) |}).

(** The controller holds three addresses, set by [__init__] and not
    assigned again by any method. *)
Record MyPicarController : Type := {
  rho_controller : ref;
  alpha_controller : ref;
  beta_controller : ref
}.

(** Lines 139-144: [if c is None: c = myPID(Kp=..., Ki=..., Kd=...)]. *)
Definition or_new (given : option ref) (Kp Ki Kd : float) : M heap ref :=
  match given with
  | Some p => ret p
  | None => new Kp Ki Kd
  end.

Local Open Scope float_scope.
Local Open Scope py_scope.

Definition __init__ (rho alpha beta : option ref)
  (kpr kpa kpb kdr kda kdb kir kia kib : float) : M heap MyPicarController :=
  r <- or_new rho kpr kir kdr ;;
  a <- or_new alpha kpa kia kda ;;
  b <- or_new beta kpb kib kdb ;;
  ret {| rho_controller := r; alpha_controller := a; beta_controller := b |}.

Definition SPEED (self : MyPicarController) (rho dt : float) : M heap float :=
  input self.(rho_controller) rho dt.

Definition STEER (self : MyPicarController) (speed alpha beta L dt : float)
  : M heap float :=
  a <- input self.(alpha_controller) alpha dt ;;
  b <- input self.(beta_controller) beta dt ;;
  let dh := a + b in
  let s := abs speed in
  q <- lift (truediv (dh * L) s) ;;
  let steer := atan q in
  lift (within_pi steer).

Definition DIRECTION (self : MyPicarController) (alpha dt : float) : M heap bool :=
  if pi / 2 + 1e-4 <? abs alpha then ret true else ret false.

(** ** Reading the store *)

(** The address has been given out. *)
Definition allocated (h : heap) (p : ref) : bool := Nat.ltb p h.(next).

(** The three loops of the controller are three objects. *)
Definition separate (self : MyPicarController) : bool :=
  (negb (Nat.eqb self.(rho_controller) self.(alpha_controller))
   && negb (Nat.eqb self.(rho_controller) self.(beta_controller))
   && negb (Nat.eqb self.(alpha_controller) self.(beta_controller)))%bool.

(** The states of the three loops, as module [Controller] has them. *)
Definition loops (self : MyPicarController) (h : heap)
  : Controller.MyPicarController myPID :=
  {| Controller.rho_controller := h.(objects) self.(rho_controller);
     Controller.alpha_controller := h.(objects) self.(alpha_controller);
     Controller.beta_controller := h.(objects) self.(beta_controller) |}.

End Methods.

End Shared.

(** Modelled from the spec: the PID loop [myPID] of module [my_pid], which is
    absent from the sources.  Section 4.1: the output is
    [Kp*error + Ki*integral_accum' + Kd*(error - prev_error)/dt] with
    [integral_accum' = integral_accum + error*dt]; then [prev_error] becomes
    [error]; with [dt = 0] the integral and derivative terms contribute
    nothing.  It serves to run the controller on concrete inputs. *)
Module SpecPID.

Record myPID : Type := {
  Kp : float;
  Ki : float;
  Kd : float;
  integral_accum : float;
  prev_error : float
}.

Definition new_myPID (Kp Ki Kd : float) : myPID :=
  {| Kp := Kp; Ki := Ki; Kd := Kd; integral_accum := 0; prev_error := 0 |}.

Local Open Scope float_scope.

Definition input (error dt : float) : M myPID float :=
  fun p =>
    if dt =? 0 then
      (Ok (p.(Kp) * error),
       {| Kp := p.(Kp); Ki := p.(Ki); Kd := p.(Kd);
          integral_accum := p.(integral_accum); prev_error := error |})
    else
      let integral' := p.(integral_accum) + error * dt in
      (Ok (p.(Kp) * error + p.(Ki) * integral' + p.(Kd) * (error - p.(prev_error)) / dt),
       {| Kp := p.(Kp); Ki := p.(Ki); Kd := p.(Kd);
          integral_accum := integral'; prev_error := error |}).

End SpecPID.

(* ===================================================================== *)
(** * [PicarHardwareInterface] (lines 29-120)                             *)
(* ===================================================================== *)

(** The front and back wheel objects ([Front_Wheels], [Back_Wheels] or
    their virtual analogs) are defined outside this module.  The model
    records, in order, every call the interface makes on them, together
    with the calls of [sleep] and [print].

    [speed], [steer], [overshoot] and [delay] are floats (an [int] argument
    such as [5] stands for the float of the same value); [direction] and the
    results of [int(...)] are integers. *)
Module Hardware.

(** What [self.name] may evaluate to. *)
Inductive attr : Type :=
| Wheels (name : string)
| Int (n : Z)
| BoundMethod (name : string).

Inductive call : Type :=
| fw_max_turn (max_turn : Z)      (* self._fw.max_turn = max_turn *)
| fw_ready                        (* self._fw.ready() *)
| bw_ready                        (* self._bw.ready() *)
| fw_turn (angle : float)         (* self._fw.turn(angle) *)
| fw_turn_straight                (* self._fw.turn_straight() *)
| bw_forward                      (* self._bw.forward() *)
| bw_backward                     (* self._bw.backward() *)
| bw_stop                         (* self._bw.stop() *)
| bw_speed (speed : Z)            (* self._bw.speed = speed *)
| slept (secs : float)            (* sleep(secs) returned *)
| printed_invalid_direction (d : attr).  (* the message of line 108 *)

(** The interface object: the straight angle of its front wheels, the two
    attributes its methods assign (absent until first assigned), and the
    calls made so far, oldest first. *)
Record PicarHardwareInterface : Type := {
  _straight_angle : float;        (* self._fw._straight_angle *)
  _steering : option Z;           (* self._steering *)
  _speed : option Z;              (* self._speed *)
  calls : list call
}.

Definition emit (c : call) : M PicarHardwareInterface unit :=
  modify (fun self =>
    {| _straight_angle := self.(_straight_angle);
       _steering := self.(_steering);
       _speed := self.(_speed);
       calls := self.(calls) ++ [c] |}).

Definition set_steering (n : Z) : M PicarHardwareInterface unit :=
  modify (fun self =>
    {| _straight_angle := self.(_straight_angle);
       _steering := Some n;
       _speed := self.(_speed);
       calls := self.(calls) |}).

Definition set_speed (n : Z) : M PicarHardwareInterface unit :=
  modify (fun self =>
    {| _straight_angle := self.(_straight_angle);
       _steering := self.(_steering);
       _speed := Some n;
       calls := self.(calls) |}).

(** The longest duration, in whole seconds, that [time.sleep] accepts on
    every platform: the Windows builds of CPython up to 3.10 count the
    wait in 32-bit milliseconds, the other builds reach further. *)
Definition sleep_max : float := 4294967%float.

(** What [time.sleep] does with a longer duration depends on the platform
    and on its clock (CPython 3.11 on Linux adds the duration to the
    monotonic clock and raises [OSError] or [OverflowError] when the sum
    does not fit): given the calls made so far and the duration, either
    the exception raised or [None] for a wait. *)
Class Platform : Type := {
  long_sleep : list call -> float -> option exn
}.

Section Methods.

Context {P : Platform}.

Local Open Scope py_scope.

(** [time.sleep(secs)]: [ValueError] for a negative duration or NaN; a
    wait for a duration up to [sleep_max]; beyond it, what the platform
    decides. *)
Definition sleep (secs : float) : M PicarHardwareInterface unit :=
  if (0 <=? secs)%float then
    if (secs <=? sleep_max)%float then emit (slept secs)
    else
      self <- get ;;
      match long_sleep self.(calls) secs with
      | None => emit (slept secs)
      | Some e => raise e
      end
  else raise ValueError.

(** Lines 50-54 of [__init__(self, configfile="config", virtual=False,
    virtual_verbose=False, max_turn=40)], once the two wheel objects are
    built; [straight_angle] is what the front wheels were built with. *)
Definition __init__ (straight_angle : float) (max_turn : Z) : PicarHardwareInterface :=
  {| _straight_angle := straight_angle;
     _steering := None;
     _speed := None;
     calls := [fw_max_turn max_turn; fw_ready; bw_ready; bw_forward] |}.

(** Lines 56-62. *)
Definition turn_wheels (steer : float) : M PicarHardwareInterface unit :=
  self <- get ;;
  emit (fw_turn (steer + self.(_straight_angle))).

(** Lines 64-76: [turn_wheels_straight(self, overshoot=10, delay=0.05)]. *)
Definition turn_wheels_straight (overshoot delay : float) : M PicarHardwareInterface unit :=
  turn_wheels overshoot ;;
  sleep delay ;;
  turn_wheels (- overshoot) ;;
  sleep delay ;;
  emit fw_turn_straight ;;
  set_steering 0.

(** Lines 78-83. *)
Definition stop_motors : M PicarHardwareInterface unit :=
  emit bw_stop ;;
  set_speed 0.

Definition class_name : string := "PicarHardwareInterface".

(** The methods defined in the class body. *)
Definition method_names : list string :=
  [ "__init__"; "turn_wheels"; "turn_wheels_straight"; "stop_motors";
    "apply_controls" ]%string.

Definition entry (name : string) (v : option Z) : list (string * attr) :=
  match v with
  | Some n => [(name, Int n)]
  | None => []
  end.

(** The instance dictionary: [_fw] and [_bw] from [__init__], [_steering]
    and [_speed] once assigned. *)
Definition instance_dict (self : PicarHardwareInterface) : list (string * attr) :=
  [ ("_fw", Wheels "_fw"); ("_bw", Wheels "_bw") ]%string
  ++ entry "_steering" self.(_steering)
  ++ entry "_speed" self.(_speed).

(** [self.name]: the instance dictionary, then the class; otherwise
    [AttributeError].  (The attributes every object inherits, all spelled
    [__x__], are left out: no method refers to one.) *)
Definition getattr (name : string) : M PicarHardwareInterface attr :=
  fun self =>
    match assoc name (instance_dict self) with
    | Some v => (Ok v, self)
    | None =>
        if mem name method_names then (Ok (BoundMethod name), self)
        else (Raise (AttributeError class_name name), self)
    end.

(** [a()], a call without arguments: the two methods whose parameters all
    have defaults run; the wheel objects and integers are not callable and
    the other methods miss a required argument.  ([__init__] would rebuild
    the wheel objects, which is outside the model.) *)
Definition call0 (a : attr) : M PicarHardwareInterface unit :=
  match a with
  | BoundMethod name =>
      if String.eqb name "turn_wheels_straight" then turn_wheels_straight 10 0.05
      else if String.eqb name "stop_motors" then stop_motors
      else raise TypeError
  | Wheels _ | Int _ => raise TypeError
  end.

(** Lines 85-120: [apply_controls(self, speed, steer, direction=1)].
    [steer_angle] is assigned on line 94 and not read afterwards: lines
    111-114 test and pass [steer]. *)
Definition apply_controls (speed steer : float) (direction : Z)
  : M PicarHardwareInterface unit :=
  n <- lift (int steer) ;;
  let steer_angle := (direction * n)%Z in
  speed <- lift (int (abs speed)) ;;
  (if (direction =? 1)%Z then emit bw_forward
   else if (direction =? -1)%Z then emit bw_backward
   else if (direction =? 0)%Z then ret tt
   else
     halt <- getattr "halt" ;;
     call0 halt ;;
     d <- getattr "_direction" ;;
     emit (printed_invalid_direction d)) ;;
  (if (steer =? 0)%float then turn_wheels_straight 10 0.05
   else turn_wheels steer) ;;
  (if (speed =? 0)%Z then stop_motors
   else emit (bw_speed speed)).

(** Whether [sleep(secs)] returns after the calls in [history]. *)
Definition sleep_returns (history : list call) (secs : float) : bool :=
  ((0 <=? secs)%float
   && ((secs <=? sleep_max)%float
       || match long_sleep history secs with
          | None => true
          | Some _ => false
          end))%bool.

End Methods.

(** ** Reading the record of calls *)

Definition is_stop (c : call) : bool :=
  match c with bw_stop => true | _ => false end.

Definition is_set_speed (c : call) : bool :=
  match c with bw_speed _ => true | _ => false end.

Definition is_set_direction (c : call) : bool :=
  match c with bw_forward | bw_backward => true | _ => false end.

Definition is_steering (c : call) : bool :=
  match c with fw_turn _ | fw_turn_straight => true | _ => false end.


Definition count (p : call -> bool) (l : list call) : nat :=
  List.length (filter p l).

(** The durations [sleep] accepts on every platform. *)
Definition sleep_accepts (secs : float) : bool :=
  ((0 <=? secs) && (secs <=? sleep_max))%float.

(** The direction is one of the three the method handles. *)
Definition handled (direction : Z) : Prop :=
  direction = 1%Z \/ direction = (-1)%Z \/ direction = 0%Z.

(** The calls of the three steps of [apply_controls], for a handled
    direction: lines 98-104, 111-114 and 117-120. *)
Definition direction_calls (direction : Z) : list call :=
  if (direction =? 1)%Z then [bw_forward]
  else if (direction =? -1)%Z then [bw_backward]
  else [].

Definition steering_calls (steer straight_angle : float) : list call :=
  if (steer =? 0)%float then
    [ fw_turn (10 + straight_angle); slept 0.05;
      fw_turn (- (10) + straight_angle); slept 0.05;
      fw_turn_straight ]%float
  else [fw_turn (steer + straight_angle)].

Definition speed_calls (speed : Z) : list call :=
  if (speed =? 0)%Z then [bw_stop] else [bw_speed speed].

End Hardware.

(* ===================================================================== *)
(** * Sequences of calls on one interface                                 *)
(* ===================================================================== *)

(** A caller such as [test_PicarHardwareInterface] (lines 122-130) makes
    one method call after another on the same object.  The object keeps
    whatever a call did before raising, so a caller that catches the
    exception goes on with the state the failed call left. *)
Module Caller.

Import Hardware.

Inductive method_call : Type :=
| call_turn_wheels (steer : float)
| call_turn_wheels_straight (overshoot delay : float)
| call_stop_motors
| call_apply_controls (speed steer : float) (direction : Z).

Section Methods.

Context {P : Platform}.

Definition invoke (c : method_call) : M PicarHardwareInterface unit :=
  match c with
  | call_turn_wheels steer => turn_wheels steer
  | call_turn_wheels_straight overshoot delay => turn_wheels_straight overshoot delay
  | call_stop_motors => stop_motors
  | call_apply_controls speed steer direction => apply_controls speed steer direction
  end.

(** The object after a sequence of calls, each one run whether or not the
    one before it raised. *)
Fixpoint after (cs : list method_call) (self : PicarHardwareInterface)
  : PicarHardwareInterface :=
  match cs with
  | [] => self
  | c :: cs' => after cs' (snd (invoke c self))
  end.

End Methods.

(** The attribute is unset or holds 0. *)
Definition unset_or_zero (v : option Z) : Prop :=
  v = None \/ v = Some 0%Z.

End Caller.

(* ===================================================================== *)
(** * Concrete instances                                                  *)
(* ===================================================================== *)

(** A converter with speed scale 2, speed offset 3, angle scale 3 and time
    scale 2, on floats and on fractions. *)
Definition sample_converter : Converter.PicarUnitConverter float :=
  (Converter.__init__ 2 3 2 3 0)%float.

Definition sample_converter_Q : Converter.PicarUnitConverter Q :=
  (Converter.__init__ 2 3 2 3 0)%Q.

(** Any behaviour serves for the objects outside the class: the two bare
    names are not bound, so nothing is called. *)
Definition no_external (name : string) (x : float) : result float :=
  Raise TypeError.

(** The controller of [test_MyPicarController]: default gains ([kpr = 1],
    all others 0), with the PID loop as the spec describes it. *)
Definition sample_controller : Controller.MyPicarController SpecPID.myPID :=
  (Controller.__init__ SpecPID.new_myPID None None None 1 0 0 0 0 0 0 0 0)%float.

(** The division raises before [atan] and [within_pi] are called; these two
    functions only close the terms below. *)
Definition atan_unreached (x : float) : float := x.

Definition within_pi_unreached (x : float) : result float := Ok x.

(** A platform for the runs on concrete inputs: it raises [OverflowError]
    for every duration beyond [sleep_max].  The runs below only sleep for
    0.05 s or are refused a negative duration, so they come out the same
    on every platform. *)
Definition sample_platform : Hardware.Platform :=
  {| Hardware.long_sleep := fun _ _ => Some OverflowError |}.

#[export] Existing Instance sample_platform | 100.

(** A store where nothing has been given out yet, and the store after
    [p = myPID(1, 2, 3)], which puts [p] at address 0. *)
Definition empty_heap : Shared.heap SpecPID.myPID :=
  {| Shared.objects := fun _ => (SpecPID.new_myPID 0 0 0)%float;
     Shared.next := 0%nat |}.

Definition one_loop : Shared.heap SpecPID.myPID :=
  snd ((Shared.new SpecPID.new_myPID 1 2 3)%float empty_heap).

(** [MyPicarController(alpha_controller=p, beta_controller=p)]: one loop
    for two roles, and the store the construction leaves. *)
Definition shared_controller : Shared.MyPicarController :=
  {| Shared.rho_controller := 1%nat;
     Shared.alpha_controller := 0%nat;
     Shared.beta_controller := 0%nat |}.

Definition shared_heap : Shared.heap SpecPID.myPID :=
  snd ((Shared.__init__ SpecPID.new_myPID None (Some 0%nat) (Some 0%nat)
          1 0 0 0 0 0 0 0 0)%float one_loop).

(** [MyPicarController()] in a store where nothing has been given out, and
    the store it leaves. *)
Definition default_controller : Shared.MyPicarController :=
  {| Shared.rho_controller := 0%nat;
     Shared.alpha_controller := 1%nat;
     Shared.beta_controller := 2%nat |}.

Definition default_heap : Shared.heap SpecPID.myPID :=
  snd ((Shared.__init__ SpecPID.new_myPID None None None 1 0 0 0 0 0 0 0 0)%float
         empty_heap).

(** The interface right after construction, with the front wheels straight
    at 90 degrees and the default [max_turn]. *)
Definition sample_interface : Hardware.PicarHardwareInterface :=
  Hardware.__init__ 90 40.

(* ===================================================================== *)
(** * Properties of [PicarUnitConverter]                                  *)
(* ===================================================================== *)

Unset Implicit Arguments.

Section ConverterFacts.

Import Converter.

Context {A : Type} {num : Number A}.
Variable call_external : string -> A -> result A.

Local Open Scope num_scope.

(** Neither conversion method is bound under its bare name, whatever the
    locals of the calling method are called. *)
Lemma speed_picar2world_not_in_scope :
  load_name ["self"; "picar_length"]%string "speed_picar2world"
  = Raise (NameError "speed_picar2world").
Proof. reflexivity. Qed.

Lemma speed_world2picar_not_in_scope :
  load_name ["self"; "world_length"]%string "speed_world2picar"
  = Raise (NameError "speed_world2picar").
Proof. reflexivity. Qed.

(** No instance has an attribute [time_scale]: [__init__] stores the time
    slope as [world_time_scale]. *)
Lemma time_scale_missing (self : PicarUnitConverter A) :
  getattr self "time_scale" = Raise (AttributeError "PicarUnitConverter" "time_scale").
Proof. destruct self; reflexivity. Qed.

Lemma world_time_scale_found (self : PicarUnitConverter A) :
  getattr self "world_time_scale" = Ok (Data self.(world_time_scale)).
Proof. destruct self; reflexivity. Qed.

(** C1 (the code departs from it): the contract is
    [length_to_world(l) = speed_to_world(l) * time_scale_value] on the
    instance's own method and attribute, and its dual for the inverse.
    The two length methods raise [NameError] on every instance and input,
    and no instance has the attribute [time_scale] they read next; the
    contract has the value
    [(world_speed_scale*l + world_speed_offset) * world_time_scale]. *)
Theorem length_conversions_raise (self : PicarUnitConverter A) (x : A) :
  length_picar2world call_external self x = Raise (NameError "speed_picar2world")
  /\ length_world2picar call_external self x = Raise (NameError "speed_world2picar")
  /\ getattr self "time_scale" = Raise (AttributeError "PicarUnitConverter" "time_scale")
  /\ length_picar2world_intended self x
     = Ok ((self.(world_speed_scale) * x + self.(world_speed_offset)) * self.(world_time_scale)).
Proof.
  split; [reflexivity|]. split; [reflexivity|].
  split; [apply time_scale_missing | reflexivity].
Qed.

End ConverterFacts.

(** ** Round trips of the other three quantities, in exact arithmetic

    On fractions the affine maps and their inverses cancel exactly when
    the scale is not zero; on floats each operation rounds, so the same
    compositions return the input up to that rounding (examples below). *)
Section ExactRoundTrips.

Import Converter.

Variable self : PicarUnitConverter Q.

Local Open Scope Q_scope.

Lemma Fraction_div_ok (x y : Q) : ~ y == 0 -> div x y = Ok (x / y).
Proof.
  intros Hy. unfold div; simpl.
  destruct (Qeq_bool y 0) eqn:E; [|reflexivity].
  apply Qeq_bool_eq in E. contradiction.
Qed.

Lemma speed_round_trip_exact (x : Q) :
  ~ self.(world_speed_scale) == 0 ->
  exists y, rbind (speed_picar2world self x) (speed_world2picar self) = Ok y /\ y == x.
Proof.
  intros Hs. unfold speed_picar2world, speed_world2picar, rbind.
  rewrite Fraction_div_ok by assumption.
  eexists; split; [reflexivity|]. cbn [add sub mul Fraction_Number]. field. assumption.
Qed.

Lemma speed_round_trip_exact_rev (w : Q) :
  ~ self.(world_speed_scale) == 0 ->
  exists y, rbind (speed_world2picar self w) (speed_picar2world self) = Ok y /\ y == w.
Proof.
  intros Hs. unfold speed_picar2world, speed_world2picar, rbind.
  rewrite Fraction_div_ok by assumption.
  eexists; split; [reflexivity|]. cbn [add sub mul Fraction_Number]. field. assumption.
Qed.

Lemma angle_round_trip_exact (x : Q) :
  ~ self.(world_angle_scale) == 0 ->
  exists y, rbind (angle_picar2world self x) (angle_world2picar self) = Ok y /\ y == x.
Proof.
  intros Hs. unfold angle_picar2world, angle_world2picar, rbind.
  rewrite Fraction_div_ok by assumption.
  eexists; split; [reflexivity|]. cbn [add sub mul Fraction_Number]. field. assumption.
Qed.

Lemma angle_round_trip_exact_rev (w : Q) :
  ~ self.(world_angle_scale) == 0 ->
  exists y, rbind (angle_world2picar self w) (angle_picar2world self) = Ok y /\ y == w.
Proof.
  intros Hs. unfold angle_picar2world, angle_world2picar, rbind.
  rewrite Fraction_div_ok by assumption.
  eexists; split; [reflexivity|]. cbn [add sub mul Fraction_Number]. field. assumption.
Qed.

Lemma time_round_trip_exact (x : Q) :
  ~ self.(world_time_scale) == 0 ->
  exists y, rbind (time_picar2world self x) (time_world2picar self) = Ok y /\ y == x.
Proof.
  intros Hs. unfold time_picar2world, time_world2picar, rbind.
  rewrite Fraction_div_ok by assumption.
  eexists; split; [reflexivity|]. cbn [add sub mul Fraction_Number]. field. assumption.
Qed.

Lemma time_round_trip_exact_rev (w : Q) :
  ~ self.(world_time_scale) == 0 ->
  exists y, rbind (time_world2picar self w) (time_picar2world self) = Ok y /\ y == w.
Proof.
  intros Hs. unfold time_picar2world, time_world2picar, rbind.
  rewrite Fraction_div_ok by assumption.
  eexists; split; [reflexivity|]. cbn [add sub mul Fraction_Number]. field. assumption.
Qed.

(** A zero scale makes the inverse conversion raise. *)
Lemma speed_world2picar_zero_scale (w : Q) :
  self.(world_speed_scale) == 0 -> speed_world2picar self w = Raise ZeroDivisionError.
Proof.
  intros Hs. unfold speed_world2picar, div; simpl.
  destruct (Qeq_bool (world_speed_scale self) 0) eqn:E; [reflexivity|].
  apply Qeq_bool_neq in E. contradiction.
Qed.

(** C2 (as amended): for speed, angle and time, converting to world units
    and back returns the input, and so does the reverse composition,
    whenever the scale of that quantity is not zero.  Stated in exact
    arithmetic; the length conversions are left out. *)
Theorem round_trip_exact (x : Q) :
  ~ self.(world_speed_scale) == 0 ->
  ~ self.(world_angle_scale) == 0 ->
  ~ self.(world_time_scale) == 0 ->
  (exists y, rbind (speed_picar2world self x) (speed_world2picar self) = Ok y /\ y == x)
  /\ (exists y, rbind (speed_world2picar self x) (speed_picar2world self) = Ok y /\ y == x)
  /\ (exists y, rbind (angle_picar2world self x) (angle_world2picar self) = Ok y /\ y == x)
  /\ (exists y, rbind (angle_world2picar self x) (angle_picar2world self) = Ok y /\ y == x)
  /\ (exists y, rbind (time_picar2world self x) (time_world2picar self) = Ok y /\ y == x)
  /\ (exists y, rbind (time_world2picar self x) (time_picar2world self) = Ok y /\ y == x).
Proof.
  intros Hs Ha Ht.
  repeat split;
    auto using speed_round_trip_exact, speed_round_trip_exact_rev,
      angle_round_trip_exact, angle_round_trip_exact_rev,
      time_round_trip_exact, time_round_trip_exact_rev.
Qed.

End ExactRoundTrips.

(** C2 (where it fails): at [sample_converter] and the length 1, converting
    to world units and back raises [NameError].  With the instance's own
    methods, as the docstring intends, the result would be 1.75, not 1:
    [((2*1 + 3)*2 - 3)/2/2]. *)
Lemma length_round_trip_fails :
  rbind (Converter.length_picar2world no_external sample_converter 1%float)
        (Converter.length_world2picar no_external sample_converter)
  = Raise (NameError "speed_picar2world")
  /\ rbind (Converter.length_picar2world_intended sample_converter 1%float)
           (Converter.length_world2picar_intended sample_converter)
     = Ok 1.75%float.
Proof. split; vm_compute; reflexivity. Qed.

Lemma round_trip_exact_witness :
  (exists y, rbind (Converter.speed_picar2world sample_converter_Q (1#2))
                   (Converter.speed_world2picar sample_converter_Q) = Ok y /\ y == 1#2)
  /\ (exists y, rbind (Converter.speed_world2picar sample_converter_Q (1#2))
                      (Converter.speed_picar2world sample_converter_Q) = Ok y /\ y == 1#2)
  /\ (exists y, rbind (Converter.angle_picar2world sample_converter_Q (1#2))
                      (Converter.angle_world2picar sample_converter_Q) = Ok y /\ y == 1#2)
  /\ (exists y, rbind (Converter.angle_world2picar sample_converter_Q (1#2))
                      (Converter.angle_picar2world sample_converter_Q) = Ok y /\ y == 1#2)
  /\ (exists y, rbind (Converter.time_picar2world sample_converter_Q (1#2))
                      (Converter.time_world2picar sample_converter_Q) = Ok y /\ y == 1#2)
  /\ (exists y, rbind (Converter.time_world2picar sample_converter_Q (1#2))
                      (Converter.time_picar2world sample_converter_Q) = Ok y /\ y == 1#2).
Proof.
  apply (round_trip_exact sample_converter_Q (1#2)); vm_compute; discriminate.
Defined.

(** On floats the speed round trip is exact at 1.5 for this converter.
    With scale 1 and offset 1e20 the input 1 is absorbed by the offset and
    the round trip returns 0. *)
Example float_speed_round_trip :
  rbind (Converter.speed_picar2world sample_converter 1.5%float)
        (Converter.speed_world2picar sample_converter)
  = Ok 1.5%float.
Proof. vm_compute. reflexivity. Qed.

Example float_speed_round_trip_absorbed :
  rbind (Converter.speed_picar2world (Converter.__init__ 1 1 1 1e20 0)%float 1%float)
        (Converter.speed_world2picar (Converter.__init__ 1 1 1 1e20 0)%float)
  = Ok 0%float.
Proof. vm_compute. reflexivity. Qed.


(* ===================================================================== *)
(** * Properties of [MyPicarController]                                   *)
(* ===================================================================== *)

(** Zero of either sign is the only float that compares equal to 0, and
    [abs] keeps it so. *)
Lemma eqb_zero_SF (x : float) :
  (x =? 0)%float = true -> exists s, Prim2SF x = S754_zero s.
Proof.
  rewrite FloatAxioms.eqb_spec.
  change (Prim2SF 0) with (S754_zero false).
  destruct (Prim2SF x) as [s|s| |s m e]; try discriminate.
  - intros _. now exists s.
  - destruct s; discriminate.
  - destruct s; discriminate.
Qed.

Lemma abs_zero (x : float) :
  (x =? 0)%float = true -> (abs x =? 0)%float = true.
Proof.
  intros H. destruct (eqb_zero_SF x H) as [s Hs].
  rewrite FloatAxioms.eqb_spec, abs_spec, Hs. reflexivity.
Qed.

Section ControllerFacts.

Import Controller.

Variable myPID : Type.
Variable pid_input : float -> float -> M myPID float.
Variable atan : float -> float.
Variable within_pi : float -> result float.

Local Open Scope float_scope.

(** C6: [DIRECTION(alpha, dt)] returns whether [|alpha| > pi/2 + 1e-4],
    the bound being the float 1.5708963267948965; it is false at
    [pi/2 - 0.001] and at [pi/2], true at [pi/2 + 0.001]; the result is
    the same for every [dt] and every controller, and the controller is
    left as it was. *)
Theorem DIRECTION_threshold (self : MyPicarController myPID) (alpha dt : float) :
  DIRECTION alpha dt self = (Ok (pi / 2 + 1e-4 <? abs alpha), self)
  /\ (fst (DIRECTION alpha dt self) = Ok true <-> (pi / 2 + 1e-4 <? abs alpha) = true)
  /\ pi / 2 + 1e-4 = 0x1.922642fcfd989p+0
  /\ (forall (dt' : float) (other : MyPicarController myPID),
        fst (DIRECTION alpha dt' other) = fst (DIRECTION alpha dt self))
  /\ (forall dt' : float, snd (DIRECTION alpha dt' self) = self)
  /\ fst (DIRECTION (pi / 2 - 0.001) dt self) = Ok false
  /\ fst (DIRECTION (pi / 2 + 0.001) dt self) = Ok true
  /\ fst (DIRECTION (pi / 2) dt self) = Ok false.
Proof.
  assert (E : forall a d (c : MyPicarController myPID),
             DIRECTION a d c = (Ok (pi / 2 + 1e-4 <? abs a), c)).
  { intros a d c. unfold DIRECTION. destruct (pi / 2 + 1e-4 <? abs a); reflexivity. }
  split; [apply E|].
  split.
  { rewrite E. cbn [fst]. split; intros H; [now injection H | now rewrite H]. }
  split; [vm_compute; reflexivity|].
  split; [intros dt' other; now rewrite !E|].
  split; [intros dt'; now rewrite E|].
  rewrite !E. cbn [fst]. repeat split; vm_compute; reflexivity.
Qed.

(** With a speed of zero (of either sign), once both loops have returned,
    the division raises and the loops stay updated. *)
Lemma STEER_division_raises (self : MyPicarController myPID)
  (speed alpha beta L dt a b : float) (pa pb : myPID) :
  (speed =? 0) = true ->
  pid_input alpha dt self.(alpha_controller) = (Ok a, pa) ->
  pid_input beta dt self.(beta_controller) = (Ok b, pb) ->
  STEER pid_input atan within_pi speed alpha beta L dt self
  = (Raise ZeroDivisionError,
     {| rho_controller := self.(rho_controller);
        alpha_controller := pa;
        beta_controller := pb |}).
Proof.
  intros Hz Ha Hb.
  unfold STEER, bind, on_alpha, on_beta, lift, truediv.
  rewrite Ha. cbn. rewrite Hb. rewrite (abs_zero _ Hz). reflexivity.
Qed.

(** With any other speed the result is [within_pi(atan(dh*L/s))]. *)
Lemma STEER_nonzero_speed (self : MyPicarController myPID)
  (speed alpha beta L dt a b : float) (pa pb : myPID) :
  (abs speed =? 0) = false ->
  pid_input alpha dt self.(alpha_controller) = (Ok a, pa) ->
  pid_input beta dt self.(beta_controller) = (Ok b, pb) ->
  STEER pid_input atan within_pi speed alpha beta L dt self
  = (within_pi (atan ((a + b) * L / abs speed)),
     {| rho_controller := self.(rho_controller);
        alpha_controller := pa;
        beta_controller := pb |}).
Proof.
  intros Hz Ha Hb.
  unfold STEER, bind, on_alpha, on_beta, lift, truediv.
  rewrite Ha. cbn. rewrite Hb. rewrite Hz. reflexivity.
Qed.

(** When a PID call raises, [STEER] raises the same exception. *)
Lemma STEER_alpha_raises (self : MyPicarController myPID)
  (speed alpha beta L dt : float) (e : exn) (pa : myPID) :
  pid_input alpha dt self.(alpha_controller) = (Raise e, pa) ->
  fst (STEER pid_input atan within_pi speed alpha beta L dt self) = Raise e.
Proof.
  intros Ha. unfold STEER, bind, on_alpha. rewrite Ha. reflexivity.
Qed.

Lemma STEER_beta_raises (self : MyPicarController myPID)
  (speed alpha beta L dt a : float) (e : exn) (pa pb : myPID) :
  pid_input alpha dt self.(alpha_controller) = (Ok a, pa) ->
  pid_input beta dt self.(beta_controller) = (Raise e, pb) ->
  fst (STEER pid_input atan within_pi speed alpha beta L dt self) = Raise e.
Proof.
  intros Ha Hb. unfold STEER, bind, on_alpha, on_beta.
  rewrite Ha. cbn. rewrite Hb. reflexivity.
Qed.

(** C5 (as amended): [STEER] does not handle a zero speed.  For every
    [alpha], [beta], [L] and [dt], a call with [speed = 0] returns no
    value: it raises, and when the two PID calls return, what it raises is
    [ZeroDivisionError], with both loops already updated. *)
Theorem STEER_zero_speed_raises (self : MyPicarController myPID)
  (speed alpha beta L dt : float) :
  (speed =? 0) = true ->
  (exists e, fst (STEER pid_input atan within_pi speed alpha beta L dt self) = Raise e)
  /\ (forall (a b : float) (pa pb : myPID),
        pid_input alpha dt self.(alpha_controller) = (Ok a, pa) ->
        pid_input beta dt self.(beta_controller) = (Ok b, pb) ->
        STEER pid_input atan within_pi speed alpha beta L dt self
        = (Raise ZeroDivisionError,
           {| rho_controller := self.(rho_controller);
              alpha_controller := pa;
              beta_controller := pb |})).
Proof.
  intros Hz. split.
  - destruct (pid_input alpha dt self.(alpha_controller)) as [[a|e] pa] eqn:Ha.
    + destruct (pid_input beta dt self.(beta_controller)) as [[b|e] pb] eqn:Hb.
      * exists ZeroDivisionError.
        now rewrite (STEER_division_raises self speed alpha beta L dt a b pa pb Hz Ha Hb).
      * exists e. exact (STEER_beta_raises self speed alpha beta L dt a e pa pb Ha Hb).
    + exists e. exact (STEER_alpha_raises self speed alpha beta L dt e pa Ha).
  - intros a b pa pb Ha Hb.
    exact (STEER_division_raises self speed alpha beta L dt a b pa pb Hz Ha Hb).
Qed.

End ControllerFacts.

(** C5 (where it fails): the call of [test_MyPicarController] with the speed
    set to 0, [STEER(speed=0, alpha=pi/2, beta=-pi/4, L=2)], raises
    [ZeroDivisionError]. *)
Lemma STEER_zero_speed_example :
  fst (Controller.STEER SpecPID.input atan_unreached within_pi_unreached
         0 (pi / 2) (- pi / 4) 2 1 sample_controller)%float
  = Raise ZeroDivisionError.
Proof. vm_compute. reflexivity. Qed.

Lemma STEER_zero_speed_raises_witness :
  (- 0 =? 0)%float = true
  /\ Controller.STEER SpecPID.input atan_unreached within_pi_unreached
       (- 0) (pi / 2) (- pi / 4) 2 1 sample_controller
     = (Raise ZeroDivisionError,
        {| Controller.rho_controller := SpecPID.new_myPID 1 0 0;
           Controller.alpha_controller :=
             {| SpecPID.Kp := 0; SpecPID.Ki := 0; SpecPID.Kd := 0;
                SpecPID.integral_accum := pi / 2;
                SpecPID.prev_error := pi / 2 |};
           Controller.beta_controller :=
             {| SpecPID.Kp := 0; SpecPID.Ki := 0; SpecPID.Kd := 0;
                SpecPID.integral_accum := - pi / 4;
                SpecPID.prev_error := - pi / 4 |} |})%float.
Proof.
  split; [vm_compute; reflexivity|].
  apply (proj2 (STEER_zero_speed_raises SpecPID.myPID SpecPID.input
                  atan_unreached within_pi_unreached sample_controller
                  (- 0) (pi / 2) (- pi / 4) 2 1 eq_refl)%float
           0%float (- 0)%float);
    vm_compute; reflexivity.
Defined.

(* ===================================================================== *)
(** * Properties of [PicarHardwareInterface]                              *)
(* ===================================================================== *)

Section HardwareFacts.

Import Hardware.

Context {P : Platform}.

Local Open Scope float_scope.

Implicit Type self : PicarHardwareInterface.

(** ** One step at a time *)

Lemma emit_run (c : call) self :
  emit c self
  = (Ok tt, {| _straight_angle := self.(_straight_angle);
               _steering := self.(_steering);
               _speed := self.(_speed);
               calls := self.(calls) ++ [c] |}).
Proof. reflexivity. Qed.

Lemma turn_wheels_run (steer : float) self :
  turn_wheels steer self
  = (Ok tt, {| _straight_angle := self.(_straight_angle);
               _steering := self.(_steering);
               _speed := self.(_speed);
               calls := self.(calls) ++ [fw_turn (steer + self.(_straight_angle))] |}).
Proof. reflexivity. Qed.

Lemma sleep_run (secs : float) self :
  sleep_accepts secs = true ->
  sleep secs self
  = (Ok tt, {| _straight_angle := self.(_straight_angle);
               _steering := self.(_steering);
               _speed := self.(_speed);
               calls := self.(calls) ++ [slept secs] |}).
Proof.
  unfold sleep_accepts, sleep. intros H.
  apply andb_true_iff in H as [H0 H1]. rewrite H0, H1. reflexivity.
Qed.


(** [sleep] returns when [sleep_returns] says so. *)
Lemma sleep_returns_run (secs : float) self :
  sleep_returns self.(calls) secs = true ->
  sleep secs self
  = (Ok tt, {| _straight_angle := self.(_straight_angle);
               _steering := self.(_steering);
               _speed := self.(_speed);
               calls := self.(calls) ++ [slept secs] |}).
Proof.
  unfold sleep_returns, sleep. intros H.
  apply andb_true_iff in H as [H0 H1]. rewrite H0.
  destruct (secs <=? sleep_max); [reflexivity|].
  cbn in H1. unfold bind, get.
  destruct (long_sleep self.(calls) secs); [discriminate | reflexivity].
Qed.

Lemma sleep_accepts_returns (secs : float) :
  sleep_accepts secs = true -> forall history, sleep_returns history secs = true.
Proof.
  unfold sleep_accepts, sleep_returns. intros H history.
  apply andb_true_iff in H as [H0 H1]. rewrite H0, H1. reflexivity.
Qed.

(** In every case [sleep] either waits or raises with the object as it
    was. *)
Lemma sleep_cases (secs : float) self :
  sleep secs self
  = (Ok tt, {| _straight_angle := self.(_straight_angle);
               _steering := self.(_steering);
               _speed := self.(_speed);
               calls := self.(calls) ++ [slept secs] |})
  \/ exists e, sleep secs self = (Raise e, self).
Proof.
  unfold sleep.
  destruct (0 <=? secs); [|right; now eexists].
  destruct (secs <=? sleep_max); [now left|].
  unfold bind, get.
  destruct (long_sleep self.(calls) secs) as [e|]; [right; now eexists | now left].
Qed.


Lemma stop_motors_run self :
  stop_motors self
  = (Ok tt, {| _straight_angle := self.(_straight_angle);
               _steering := self.(_steering);
               _speed := Some 0%Z;
               calls := self.(calls) ++ [bw_stop] |}).
Proof. reflexivity. Qed.

Lemma turn_wheels_straight_run (overshoot delay : float) self :
  sleep_accepts delay = true ->
  turn_wheels_straight overshoot delay self
  = (Ok tt, {| _straight_angle := self.(_straight_angle);
               _steering := Some 0%Z;
               _speed := self.(_speed);
               calls := self.(calls)
                        ++ [ fw_turn (overshoot + self.(_straight_angle));
                             slept delay;
                             fw_turn (- overshoot + self.(_straight_angle));
                             slept delay;
                             fw_turn_straight ] |}).
Proof.
  intros Hd. unfold turn_wheels_straight, bind.
  rewrite turn_wheels_run, (sleep_run _ _ Hd), turn_wheels_run, (sleep_run _ _ Hd).
  cbn. rewrite <- !app_assoc. reflexivity.
Qed.

Lemma default_delay_accepted : sleep_accepts 0.05 = true.
Proof. vm_compute. reflexivity. Qed.

(** The same with any delay that [sleep] lets through whenever called. *)
Lemma turn_wheels_straight_returns (overshoot delay : float) self :
  (forall history, sleep_returns history delay = true) ->
  turn_wheels_straight overshoot delay self
  = (Ok tt, {| _straight_angle := self.(_straight_angle);
               _steering := Some 0%Z;
               _speed := self.(_speed);
               calls := self.(calls)
                        ++ [ fw_turn (overshoot + self.(_straight_angle));
                             slept delay;
                             fw_turn (- overshoot + self.(_straight_angle));
                             slept delay;
                             fw_turn_straight ] |}).
Proof.
  intros Hd. unfold turn_wheels_straight, bind.
  rewrite turn_wheels_run, (sleep_returns_run _ _ (Hd _)).
  rewrite turn_wheels_run, (sleep_returns_run _ _ (Hd _)).
  cbn. rewrite <- !app_assoc. reflexivity.
Qed.

(** In every case [turn_wheels_straight] runs to its end, or is stopped by
    the first [sleep], after one turn, or by the second, after two. *)
Lemma turn_wheels_straight_cases (overshoot delay : float) self :
  turn_wheels_straight overshoot delay self
  = (Ok tt, {| _straight_angle := self.(_straight_angle);
               _steering := Some 0%Z;
               _speed := self.(_speed);
               calls := self.(calls)
                        ++ [ fw_turn (overshoot + self.(_straight_angle));
                             slept delay;
                             fw_turn (- overshoot + self.(_straight_angle));
                             slept delay;
                             fw_turn_straight ] |})
  \/ (exists e,
        turn_wheels_straight overshoot delay self
        = (Raise e, {| _straight_angle := self.(_straight_angle);
                       _steering := self.(_steering);
                       _speed := self.(_speed);
                       calls := self.(calls)
                                ++ [fw_turn (overshoot + self.(_straight_angle))] |}))
  \/ (exists e,
        turn_wheels_straight overshoot delay self
        = (Raise e, {| _straight_angle := self.(_straight_angle);
                       _steering := self.(_steering);
                       _speed := self.(_speed);
                       calls := self.(calls)
                                ++ [ fw_turn (overshoot + self.(_straight_angle));
                                     slept delay;
                                     fw_turn (- overshoot + self.(_straight_angle)) ] |})).
Proof.
  unfold turn_wheels_straight, bind. rewrite turn_wheels_run.
  match goal with
  | |- context [sleep delay ?s] => destruct (sleep_cases delay s) as [E | [e E]]
  end; rewrite E.
  2:{ right; left. now exists e. }
  rewrite turn_wheels_run.
  match goal with
  | |- context [sleep delay ?s] => destruct (sleep_cases delay s) as [E' | [e E']]
  end; rewrite E'; cbn; rewrite <- !app_assoc.
  - now left.
  - right; right. now exists e.
Qed.

End HardwareFacts.

(** ** Truncation of a magnitude below one *)

Section Truncation.

Local Open Scope Z_scope.

(** A mantissa of [d] binary digits is below [2^d]. *)
Lemma digits2_pos_bound (m : positive) : Zpos m < 2 ^ Zpos (digits2_pos m).
Proof.
  induction m as [p IH|p IH|]; cbn [digits2_pos].
  - rewrite Pos2Z.inj_succ, Z.pow_succ_r by lia. lia.
  - rewrite Pos2Z.inj_succ, Z.pow_succ_r by lia. lia.
  - reflexivity.
Qed.

(** Shifting right by at least as many digits as the mantissa has leaves
    nothing. *)
Lemma shiftl_small (m : positive) (e : Z) :
  e < 0 -> Zpos m < 2 ^ (- e) -> Z.shiftl (Zpos m) e = 0.
Proof.
  intros He Hm.
  replace e with (- (- e)) by lia.
  rewrite Z.shiftl_opp_r, Z.shiftr_div_pow2 by lia.
  apply Z.div_small. lia.
Qed.

(** The mantissa of a binary64 number has at most 53 digits. *)
Lemma bounded_digits (m : positive) (e : Z) :
  bounded prec emax m e = true -> Zpos (digits2_pos m) <= 53.
Proof.
  unfold bounded, canonical_mantissa, fexp. intros H.
  apply andb_true_iff in H as [H _].
  apply Z.eqb_eq in H. change prec with 53 in H. lia.
Qed.

(** A valid finite float below 1 in magnitude has no integer part. *)
Lemma finite_below_one (m : positive) (e : Z) :
  bounded prec emax m e = true ->
  SFltb (S754_finite false m e) (S754_finite false 4503599627370496 (-52)) = true ->
  Z.shiftl (Zpos m) e = 0.
Proof.
  intros V H. unfold SFltb, SFcompare in H.
  destruct (Z.compare_spec e (-52)) as [E|E|E]; try discriminate.
  - subst e. apply shiftl_small; [lia|].
    destruct (Pos.compare_cont Eq m 4503599627370496) eqn:C; try discriminate.
    assert (L : (m < 4503599627370496)%positive) by exact C.
    change (2 ^ (- -52)) with 4503599627370496%Z. exact L.
  - apply shiftl_small; [lia|].
    pose proof (digits2_pos_bound m) as B.
    pose proof (bounded_digits m e V) as D.
    assert (P : 2 ^ Zpos (digits2_pos m) <= 2 ^ (- e))
      by (apply Z.pow_le_mono_r; lia).
    clear - B P. lia.
Qed.

End Truncation.

(** [int(abs(x))] is 0 for every float [x] with [|x| < 1]. *)
Lemma int_abs_below_one (x : float) :
  (abs x <? 1)%float = true -> Py.int (abs x) = Ok 0%Z.
Proof.
  intros H. rewrite ltb_spec, abs_spec in H.
  change (Prim2SF 1) with (S754_finite false 4503599627370496 (-52)) in H.
  unfold Py.int. rewrite abs_spec.
  pose proof (Prim2SF_valid x) as V.
  destruct (Prim2SF x) as [s|s| |s m e]; cbn [SFabs] in *.
  - reflexivity.
  - discriminate.
  - discriminate.
  - cbn [cond_Zopp]. rewrite (finite_below_one m e V H). reflexivity.
Qed.

(** ** [apply_controls], step by step *)

Section ApplyControls.

Import Hardware.

Context {P : Platform}.

Local Open Scope float_scope.

Implicit Type self : PicarHardwareInterface.

(** With a handled direction and arguments [int] accepts, the call returns
    and has made the calls of its three steps, in order. *)
Lemma apply_controls_run (speed steer : float) (direction n u : Z) self :
  Py.int steer = Ok n ->
  Py.int (abs speed) = Ok u ->
  handled direction ->
  apply_controls speed steer direction self
  = (Ok tt,
     {| _straight_angle := self.(_straight_angle);
        _steering := if steer =? 0 then Some 0%Z else self.(_steering);
        _speed := if (u =? 0)%Z then Some 0%Z else self.(_speed);
        calls := self.(calls)
                 ++ direction_calls direction
                 ++ steering_calls steer self.(_straight_angle)
                 ++ speed_calls u |}).
Proof.
  intros Hn Hu Hd. destruct self as [sa st sp cs].
  unfold apply_controls, bind, lift. rewrite Hn, Hu.
  unfold direction_calls, steering_calls, speed_calls.
  destruct Hd as [-> | [-> | ->]]; cbn [Z.eqb Pos.eqb];
    rewrite ?emit_run; unfold ret;
    (destruct (steer =? 0);
     [ rewrite (turn_wheels_straight_run _ _ _ default_delay_accepted)
     | rewrite turn_wheels_run ]);
    (destruct (u =? 0)%Z; [rewrite stop_motors_run | rewrite emit_run]);
    cbn; rewrite <- ?app_assoc; reflexivity.
Qed.

(** With any other direction the call raises at [self.halt]: the class has
    no such method.  Nothing has been called by then. *)
Lemma apply_controls_unhandled (speed steer : float) (direction n u : Z) self :
  Py.int steer = Ok n ->
  Py.int (abs speed) = Ok u ->
  direction <> 1%Z -> direction <> (-1)%Z -> direction <> 0%Z ->
  apply_controls speed steer direction self
  = (Raise (AttributeError "PicarHardwareInterface" "halt"), self).
Proof.
  intros Hn Hu H1 H2 H3.
  unfold apply_controls, bind, lift. rewrite Hn, Hu.
  apply Z.eqb_neq in H1, H2, H3. rewrite H1, H2, H3.
  destruct self as [sa [st|] [sp|] cs]; reflexivity.
Qed.

(** Arguments that are NaN or infinite raise on lines 94-95, before any
    call. *)
Lemma apply_controls_bad_steer (speed steer : float) (direction : Z) (e : exn) self :
  Py.int steer = Raise e ->
  apply_controls speed steer direction self = (Raise e, self).
Proof.
  intros Hn. unfold apply_controls, bind, lift. rewrite Hn. reflexivity.
Qed.

Lemma apply_controls_bad_speed (speed steer : float) (direction n : Z) (e : exn) self :
  Py.int steer = Ok n ->
  Py.int (abs speed) = Raise e ->
  apply_controls speed steer direction self = (Raise e, self).
Proof.
  intros Hn Hu. unfold apply_controls, bind, lift. rewrite Hn, Hu. reflexivity.
Qed.

End ApplyControls.

(** ** What the calls of [apply_controls] contain *)

Section Dispatch.

Import Hardware.

Context {P : Platform}.

Local Open Scope float_scope.

Implicit Type self : PicarHardwareInterface.

Lemma count_app (p : call -> bool) (l1 l2 : list call) :
  count p (l1 ++ l2) = (count p l1 + count p l2)%nat.
Proof. unfold count. rewrite filter_app, length_app. reflexivity. Qed.

(** The direction and steering steps neither stop the motors nor set a
    speed. *)
Lemma direction_calls_no_speed (direction : Z) :
  count is_stop (direction_calls direction) = 0%nat
  /\ count is_set_speed (direction_calls direction) = 0%nat.
Proof.
  unfold direction_calls.
  destruct (direction =? 1)%Z; [|destruct (direction =? -1)%Z]; split; reflexivity.
Qed.

Lemma steering_calls_no_speed (steer straight_angle : float) :
  count is_stop (steering_calls steer straight_angle) = 0%nat
  /\ count is_set_speed (steering_calls steer straight_angle) = 0%nat.
Proof.
  unfold steering_calls. destruct (steer =? 0); split; reflexivity.
Qed.

(** The steering step is the same for every handled direction. *)
Lemma steering_ignores_direction (speed steer : float) (d1 d2 n u : Z) self :
  Py.int steer = Ok n ->
  Py.int (abs speed) = Ok u ->
  handled d1 -> handled d2 ->
  filter is_steering (calls (snd (apply_controls speed steer d1 self)))
  = filter is_steering (calls (snd (apply_controls speed steer d2 self))).
Proof.
  intros Hn Hu H1 H2.
  rewrite (apply_controls_run speed steer d1 n u self Hn Hu H1).
  rewrite (apply_controls_run speed steer d2 n u self Hn Hu H2).
  cbn [snd calls]. rewrite !filter_app. f_equal. f_equal.
  unfold direction_calls.
  destruct H1 as [-> | [-> | ->]], H2 as [-> | [-> | ->]]; reflexivity.
Qed.

(** C3 (the code departs from it): the steering step uses [steer], not
    [direction * steer].  [apply_controls(1, 5, -1)] turns the wheels to
    [5 + straight], the same angle as with direction 1, where the claim
    has [-5 + straight]; and [apply_controls(1, 5, 0)] turns them to
    [5 + straight], where the claim has the wheels turned straight. *)
Theorem apply_controls_steers_unsigned self :
  apply_controls 1 5 (-1) self
  = (Ok tt,
     {| _straight_angle := self.(_straight_angle);
        _steering := self.(_steering);
        _speed := self.(_speed);
        calls := self.(calls)
                 ++ [bw_backward; fw_turn (5 + self.(_straight_angle)); bw_speed 1] |})
  /\ apply_controls 1 5 1 self
     = (Ok tt,
        {| _straight_angle := self.(_straight_angle);
           _steering := self.(_steering);
           _speed := self.(_speed);
           calls := self.(calls)
                    ++ [bw_forward; fw_turn (5 + self.(_straight_angle)); bw_speed 1] |})
  /\ apply_controls 1 5 0 self
     = (Ok tt,
        {| _straight_angle := self.(_straight_angle);
           _steering := self.(_steering);
           _speed := self.(_speed);
           calls := self.(calls)
                    ++ [fw_turn (5 + self.(_straight_angle)); bw_speed 1] |}).
Proof.
  assert (Hn : Py.int 5 = Ok 5%Z) by (vm_compute; reflexivity).
  assert (Hu : Py.int (abs 1) = Ok 1%Z) by (vm_compute; reflexivity).
  repeat split.
  - rewrite (apply_controls_run 1 5 (-1) 5 1 self Hn Hu); [reflexivity|].
    right; left; reflexivity.
  - rewrite (apply_controls_run 1 5 1 5 1 self Hn Hu); [reflexivity|].
    left; reflexivity.
  - rewrite (apply_controls_run 1 5 0 5 1 self Hn Hu); [reflexivity|].
    right; right; reflexivity.
Qed.

(** C4 (the code departs from it): [apply_controls(3, 0, 7)] raises
    [AttributeError] at [self.halt()], since the class defines no [halt].
    No call reaches the wheels, so the motors are not stopped, and no
    message is printed; the object is as it was. *)
Theorem apply_controls_invalid_direction_raises self :
  apply_controls 3 0 7 self
  = (Raise (AttributeError "PicarHardwareInterface" "halt"), self).
Proof.
  apply (apply_controls_unhandled 3 0 7 0 3 self);
    try (vm_compute; reflexivity); discriminate.
Qed.

(** C7: [apply_controls(0, 5, 1)] makes exactly one [stop] call and no
    speed assignment.  In general, for a handled direction and arguments
    [int] accepts, the last call is [stop] when [int(abs(speed))] is 0 (and
    [_speed] becomes 0), and the assignment of [int(abs(speed))] to the
    back wheels' speed otherwise; no earlier call of the same
    [apply_controls] stops the motors or sets a speed. *)
Theorem speed_dispatch self :
  (apply_controls 0 5 1 self
   = (Ok tt,
      {| _straight_angle := self.(_straight_angle);
         _steering := self.(_steering);
         _speed := Some 0%Z;
         calls := self.(calls)
                  ++ [bw_forward; fw_turn (5 + self.(_straight_angle)); bw_stop] |})
   /\ count is_stop [bw_forward; fw_turn (5 + self.(_straight_angle)); bw_stop] = 1%nat
   /\ count is_set_speed [bw_forward; fw_turn (5 + self.(_straight_angle)); bw_stop] = 0%nat)
  /\ (forall (speed steer : float) (direction n u : Z),
        Py.int steer = Ok n ->
        Py.int (abs speed) = Ok u ->
        handled direction ->
        exists before,
          fst (apply_controls speed steer direction self) = Ok tt
          /\ calls (snd (apply_controls speed steer direction self))
             = self.(calls) ++ before
               ++ [if (u =? 0)%Z then bw_stop else bw_speed u]
          /\ count is_stop before = 0%nat
          /\ count is_set_speed before = 0%nat
          /\ (u = 0%Z -> _speed (snd (apply_controls speed steer direction self)) = Some 0%Z)).
Proof.
  split.
  - assert (Hn : Py.int 5 = Ok 5%Z) by (vm_compute; reflexivity).
    assert (Hu : Py.int (abs 0) = Ok 0%Z) by (vm_compute; reflexivity).
    rewrite (apply_controls_run 0 5 1 5 0 self Hn Hu); [|left; reflexivity].
    repeat split.
  - intros speed steer direction n u Hn Hu Hd.
    rewrite (apply_controls_run speed steer direction n u self Hn Hu Hd).
    exists (direction_calls direction ++ steering_calls steer self.(_straight_angle)).
    cbn [fst snd calls _speed].
    destruct (direction_calls_no_speed direction) as [D1 D2].
    destruct (steering_calls_no_speed steer self.(_straight_angle)) as [S1 S2].
    repeat split.
    + rewrite <- app_assoc. unfold speed_calls.
      destruct (u =? 0)%Z; reflexivity.
    + rewrite count_app, D1, S1. reflexivity.
    + rewrite count_app, D2, S2. reflexivity.
    + intros ->. reflexivity.
Qed.

(** C10 (as amended): for [0 < |speed| < 1], a handled direction and a
    [steer] that [int] accepts, [int(abs(speed))] is 0 and [apply_controls]
    ends with [stop_motors()]: the last call is [stop], [_speed] is 0, and
    no speed is set on the back wheels. *)
Theorem small_speed_stops (speed steer : float) (direction n : Z) self :
  (0 <? abs speed) = true ->
  (abs speed <? 1) = true ->
  Py.int steer = Ok n ->
  handled direction ->
  Py.int (abs speed) = Ok 0%Z
  /\ fst (apply_controls speed steer direction self) = Ok tt
  /\ (exists before,
        calls (snd (apply_controls speed steer direction self))
        = self.(calls) ++ before ++ [bw_stop]
        /\ count is_stop before = 0%nat
        /\ count is_set_speed (before ++ [bw_stop]) = 0%nat)
  /\ _speed (snd (apply_controls speed steer direction self)) = Some 0%Z.
Proof.
  intros _ Hlt Hn Hd.
  pose proof (int_abs_below_one speed Hlt) as Hu.
  rewrite (apply_controls_run speed steer direction n 0 self Hn Hu Hd).
  cbn [fst snd calls _speed Z.eqb].
  destruct (direction_calls_no_speed direction) as [D1 D2].
  destruct (steering_calls_no_speed steer self.(_straight_angle)) as [S1 S2].
  split; [exact Hu|]. split; [reflexivity|]. split; [|reflexivity].
  exists (direction_calls direction ++ steering_calls steer self.(_straight_angle)).
  repeat split.
  - rewrite <- app_assoc. reflexivity.
  - rewrite count_app, D1, S1. reflexivity.
  - rewrite !count_app, D2, S2. reflexivity.
Qed.

(** C8 (as amended): with a delay that [sleep] lets through whenever it is
    called (every delay from 0 to [sleep_max] is one),
    [turn_wheels_straight(overshoot, delay)] turns to [+overshoot], waits,
    turns to [-overshoot], waits, calls [turn_straight] and sets
    [_steering] to 0; a second call makes the same calls again and leaves
    [_steering] at 0. *)
Theorem turn_wheels_straight_sequence (overshoot delay : float) self :
  (forall history, sleep_returns history delay = true) ->
  turn_wheels_straight overshoot delay self
  = (Ok tt,
     {| _straight_angle := self.(_straight_angle);
        _steering := Some 0%Z;
        _speed := self.(_speed);
        calls := self.(calls)
                 ++ [ fw_turn (overshoot + self.(_straight_angle));
                      slept delay;
                      fw_turn (- overshoot + self.(_straight_angle));
                      slept delay;
                      fw_turn_straight ] |})
  /\ turn_wheels_straight overshoot delay
       (snd (turn_wheels_straight overshoot delay self))
     = (Ok tt,
        {| _straight_angle := self.(_straight_angle);
           _steering := Some 0%Z;
           _speed := self.(_speed);
           calls := (self.(calls)
                     ++ [ fw_turn (overshoot + self.(_straight_angle));
                          slept delay;
                          fw_turn (- overshoot + self.(_straight_angle));
                          slept delay;
                          fw_turn_straight ])
                    ++ [ fw_turn (overshoot + self.(_straight_angle));
                         slept delay;
                         fw_turn (- overshoot + self.(_straight_angle));
                         slept delay;
                         fw_turn_straight ] |}).
Proof.
  intros Hd. split.
  - apply turn_wheels_straight_returns, Hd.
  - rewrite (turn_wheels_straight_returns overshoot delay self Hd). cbn [snd].
    rewrite (turn_wheels_straight_returns overshoot delay _ Hd). reflexivity.
Qed.


(** C9: [stop_motors()] calls [stop] on the back wheels and nothing else;
    [_steering] and the straight angle are as before, and no steering or
    direction call is made.  (It also sets [_speed] to 0.) *)
Theorem stop_motors_only_stops self :
  stop_motors self
  = (Ok tt,
     {| _straight_angle := self.(_straight_angle);
        _steering := self.(_steering);
        _speed := Some 0%Z;
        calls := self.(calls) ++ [bw_stop] |})
  /\ _steering (snd (stop_motors self)) = self.(_steering)
  /\ (exists new,
        calls (snd (stop_motors self)) = self.(calls) ++ new
        /\ new = [bw_stop]
        /\ count is_steering new = 0%nat
        /\ count is_set_direction new = 0%nat).
Proof.
  repeat split. exists [bw_stop]. repeat split.
Qed.

End Dispatch.

(** ** Runs on a concrete interface *)

(** [test_PicarHardwareInterface], lines 126-130. *)
Example test_PicarHardwareInterface_calls :
  (Hardware.turn_wheels (-20) ;;
   Hardware.turn_wheels_straight 10 0.05 ;;
   Hardware.stop_motors ;;
   Hardware.apply_controls 1 (-1) 1)%py sample_interface
  = (Ok tt,
     {| Hardware._straight_angle := 90;
        Hardware._steering := Some 0%Z;
        Hardware._speed := Some 0%Z;
        Hardware.calls :=
          [ Hardware.fw_max_turn 40; Hardware.fw_ready; Hardware.bw_ready;
            Hardware.bw_forward;
            Hardware.fw_turn 70;
            Hardware.fw_turn 100; Hardware.slept 0.05;
            Hardware.fw_turn 80; Hardware.slept 0.05;
            Hardware.fw_turn_straight;
            Hardware.bw_stop;
            Hardware.bw_forward; Hardware.fw_turn 89; Hardware.bw_speed 1 ] |}).
Proof. vm_compute. reflexivity. Qed.

Lemma speed_dispatch_witness :
  Py.int 0 = Ok 0%Z
  /\ Py.int (abs (-3.9)) = Ok 3%Z
  /\ Hardware.handled (-1)
  /\ exists before,
       fst (Hardware.apply_controls (-3.9) 0 (-1) sample_interface) = Ok tt
       /\ Hardware.calls (snd (Hardware.apply_controls (-3.9) 0 (-1) sample_interface))
          = Hardware.calls sample_interface ++ before ++ [Hardware.bw_speed 3]
       /\ Hardware.count Hardware.is_stop before = 0%nat
       /\ Hardware.count Hardware.is_set_speed before = 0%nat
       /\ (3%Z = 0%Z ->
           Hardware._speed (snd (Hardware.apply_controls (-3.9) 0 (-1) sample_interface))
           = Some 0%Z).
Proof.
  split; [vm_compute; reflexivity|].
  split; [vm_compute; reflexivity|].
  split; [right; left; reflexivity|].
  apply (proj2 (speed_dispatch sample_interface) (-3.9)%float 0%float (-1)%Z 0%Z 3%Z).
  - vm_compute; reflexivity.
  - vm_compute; reflexivity.
  - right; left; reflexivity.
Defined.

Lemma small_speed_stops_witness :
  (0 <? abs 0.7)%float = true
  /\ (abs 0.7 <? 1)%float = true
  /\ Py.int 5 = Ok 5%Z
  /\ Hardware.handled (-1)
  /\ Py.int (abs 0.7) = Ok 0%Z
  /\ fst (Hardware.apply_controls 0.7 5 (-1) sample_interface) = Ok tt
  /\ (exists before,
        Hardware.calls (snd (Hardware.apply_controls 0.7 5 (-1) sample_interface))
        = Hardware.calls sample_interface ++ before ++ [Hardware.bw_stop]
        /\ Hardware.count Hardware.is_stop before = 0%nat
        /\ Hardware.count Hardware.is_set_speed (before ++ [Hardware.bw_stop]) = 0%nat)
  /\ Hardware._speed (snd (Hardware.apply_controls 0.7 5 (-1) sample_interface))
     = Some 0%Z.
Proof.
  split; [vm_compute; reflexivity|].
  split; [vm_compute; reflexivity|].
  split; [vm_compute; reflexivity|].
  split; [right; left; reflexivity|].
  apply (small_speed_stops 0.7%float 5%float (-1)%Z 5%Z sample_interface).
  - vm_compute; reflexivity.
  - vm_compute; reflexivity.
  - vm_compute; reflexivity.
  - right; left; reflexivity.
Defined.

Lemma turn_wheels_straight_sequence_witness :
  Hardware.sleep_accepts 0.05 = true
  /\ Hardware.turn_wheels_straight 10 0.05 sample_interface
     = (Ok tt,
        {| Hardware._straight_angle := 90;
           Hardware._steering := Some 0%Z;
           Hardware._speed := None;
           Hardware.calls :=
             [ Hardware.fw_max_turn 40; Hardware.fw_ready; Hardware.bw_ready;
               Hardware.bw_forward;
               Hardware.fw_turn 100; Hardware.slept 0.05;
               Hardware.fw_turn 80; Hardware.slept 0.05;
               Hardware.fw_turn_straight ] |}).
Proof.
  split; [vm_compute; reflexivity|].
  apply (proj1 (turn_wheels_straight_sequence 10%float 0.05%float sample_interface
                  (sleep_accepts_returns 0.05%float default_delay_accepted))).
Defined.

(** C8 (where it fails): [turn_wheels_straight(10, -1)] on a new interface
    raises [ValueError] at the first [time.sleep], after the turn to
    [+overshoot]: the wheels are not turned to [-overshoot],
    [turn_straight] is not called and [_steering] is not set. *)
Lemma turn_wheels_straight_negative_delay :
  Hardware.turn_wheels_straight 10 (-1) sample_interface
  = (Raise ValueError,
     {| Hardware._straight_angle := 90;
        Hardware._steering := None;
        Hardware._speed := None;
        Hardware.calls :=
          [ Hardware.fw_max_turn 40; Hardware.fw_ready; Hardware.bw_ready;
            Hardware.bw_forward; Hardware.fw_turn 100 ] |}).
Proof. vm_compute. reflexivity. Qed.

(** C10 (where it fails): [apply_controls(0.5, nan, 1)] raises [ValueError]
    at [int(steer)] on line 94, before any call: [stop_motors()] is not
    reached and the interface is as it was. *)
Lemma small_speed_nan_steer :
  Hardware.apply_controls 0.5 nan 1 sample_interface
  = (Raise ValueError, sample_interface).
Proof. vm_compute. reflexivity. Qed.

(* ===================================================================== *)
(** * Further properties: float arguments                                 *)
(* ===================================================================== *)

Section FloatFacts.

Local Open Scope float_scope.

(** A float is NaN, infinite or finite, and its representation says
    which. *)
Lemma float_cases (x : float) :
  (is_nan x = true /\ is_infinity x = false /\ Prim2SF x = S754_nan)
  \/ (is_nan x = false /\ is_infinity x = true /\ exists s, Prim2SF x = S754_infinity s)
  \/ (is_nan x = false /\ is_infinity x = false
      /\ ((exists s, Prim2SF x = S754_zero s)
          \/ (exists s m e, Prim2SF x = S754_finite s m e))).
Proof.
  unfold is_nan, is_infinity.
  rewrite !FloatAxioms.eqb_spec, abs_spec.
  change (Prim2SF infinity) with (S754_infinity false).
  destruct (Prim2SF x) as [s|s| |s m e].
  - right; right. repeat split. left. now exists s.
  - right; left. repeat split.
    + destruct s; reflexivity.
    + now exists s.
  - left. repeat split.
  - right; right. split; [|split; [reflexivity|]].
    + unfold SFeqb, SFcompare.
      destruct s; rewrite Z.compare_refl, Pos.compare_cont_refl; reflexivity.
    + right. now exists s, m, e.
Qed.

Lemma is_finite_cases (x : float) :
  is_finite x = negb (is_nan x) && negb (is_infinity x).
Proof. unfold is_finite. apply negb_orb. Qed.

(** [int(x)] raises [ValueError] on NaN, [OverflowError] on an infinity,
    and returns on every finite float. *)
Lemma int_nan (x : float) : is_nan x = true -> Py.int x = Raise ValueError.
Proof.
  intros H. unfold Py.int.
  destruct (float_cases x) as [(_ & _ & E) | [(N & _) | (N & _)]];
    [now rewrite E | congruence | congruence].
Qed.

Lemma int_infinity (x : float) : is_infinity x = true -> Py.int x = Raise OverflowError.
Proof.
  intros H. unfold Py.int.
  destruct (float_cases x) as [(_ & I & _) | [(_ & _ & s & E) | (_ & I & _)]];
    [congruence | now rewrite E | congruence].
Qed.

Lemma int_finite (x : float) : is_finite x = true -> exists n, Py.int x = Ok n.
Proof.
  rewrite is_finite_cases. intros H. unfold Py.int.
  destruct (float_cases x) as [(N & _) | [(_ & I & _) | (_ & _ & [[s E] | (s & m & e & E)])]].
  - rewrite N in H. discriminate.
  - rewrite I, andb_false_r in H. discriminate.
  - rewrite E. now eexists.
  - rewrite E. now eexists.
Qed.

Lemma int_returns_iff (x : float) :
  (exists n, Py.int x = Ok n) <-> is_finite x = true.
Proof.
  split; [|apply int_finite].
  intros [n Hn]. rewrite is_finite_cases.
  destruct (is_nan x) eqn:N; [rewrite (int_nan x N) in Hn; discriminate|].
  destruct (is_infinity x) eqn:I; [rewrite (int_infinity x I) in Hn; discriminate|].
  reflexivity.
Qed.

(** [abs] keeps the class of a float and forgets its sign. *)
Lemma abs_opp (x : float) : abs (- x) = abs x.
Proof.
  apply Prim2SF_inj. rewrite !abs_spec, opp_spec.
  destruct (Prim2SF x); reflexivity.
Qed.

Lemma abs_abs (x : float) : abs (abs x) = abs x.
Proof.
  apply Prim2SF_inj. rewrite !abs_spec.
  destruct (Prim2SF x); reflexivity.
Qed.

Lemma is_nan_abs (x : float) : is_nan (abs x) = is_nan x.
Proof.
  unfold is_nan. rewrite !FloatAxioms.eqb_spec, abs_spec.
  destruct (Prim2SF x) as [s|s| |s m e]; try reflexivity.
  - destruct s; reflexivity.
  - unfold SFabs, SFeqb, SFcompare.
    destruct s; rewrite Z.compare_refl, Pos.compare_cont_refl; reflexivity.
Qed.

Lemma is_infinity_abs (x : float) : is_infinity (abs x) = is_infinity x.
Proof. unfold is_infinity. now rewrite abs_abs. Qed.

Lemma is_finite_abs (x : float) : is_finite (abs x) = is_finite x.
Proof. unfold is_finite. now rewrite is_nan_abs, is_infinity_abs. Qed.

(** [int(abs(x))] is never negative. *)
Lemma int_abs_nonneg (x : float) (u : Z) :
  Py.int (abs x) = Ok u -> (0 <= u)%Z.
Proof.
  unfold Py.int. rewrite abs_spec.
  destruct (Prim2SF x) as [s|s| |s m e]; cbn [SFabs]; intros H;
    try discriminate; injection H as <-.
  - lia.
  - cbn [cond_Zopp]. apply Z.shiftl_nonneg. lia.
Qed.

End FloatFacts.

(* ===================================================================== *)
(** * Further properties of [apply_controls]                              *)
(* ===================================================================== *)

Section ApplyControlsOutcomes.

Import Hardware.

Context {P : Platform}.

Local Open Scope float_scope.

Implicit Type self : PicarHardwareInterface.

Lemma handled_dec (direction : Z) :
  handled direction
  \/ (direction <> 1%Z /\ direction <> (-1)%Z /\ direction <> 0%Z).
Proof. unfold handled. lia. Qed.

(** Every call either raises with the object untouched, or returns after
    the three steps. *)
Lemma apply_controls_cases (speed steer : float) (direction : Z) self :
  (exists e, apply_controls speed steer direction self = (Raise e, self))
  \/ (exists n u,
        Py.int steer = Ok n
        /\ Py.int (abs speed) = Ok u
        /\ handled direction
        /\ apply_controls speed steer direction self
           = (Ok tt,
              {| _straight_angle := self.(_straight_angle);
                 _steering := if steer =? 0 then Some 0%Z else self.(_steering);
                 _speed := if (u =? 0)%Z then Some 0%Z else self.(_speed);
                 calls := self.(calls)
                          ++ direction_calls direction
                          ++ steering_calls steer self.(_straight_angle)
                          ++ speed_calls u |})).
Proof.
  destruct (Py.int steer) as [n|e] eqn:Hn.
  2:{ left. exists e. now apply apply_controls_bad_steer. }
  destruct (Py.int (abs speed)) as [u|e] eqn:Hu.
  2:{ left. exists e. now apply apply_controls_bad_speed with n. }
  destruct (handled_dec direction) as [Hd | (H1 & H2 & H3)].
  - right. exists n, u. repeat split; try assumption.
    now apply apply_controls_run with n.
  - left. eexists. now apply apply_controls_unhandled with n u.
Qed.

(** [apply_controls] returns exactly when the direction is 1, -1 or 0 and
    [steer] and [speed] are finite; when it raises, it has made no call
    and changed no attribute. *)
Theorem apply_controls_all_or_nothing (speed steer : float) (direction : Z) self :
  (fst (apply_controls speed steer direction self) = Ok tt
   <-> handled direction /\ is_finite steer = true /\ is_finite speed = true)
  /\ (forall e : exn,
        fst (apply_controls speed steer direction self) = Raise e ->
        snd (apply_controls speed steer direction self) = self).
Proof.
  split.
  - split.
    + intros H.
      destruct (Py.int steer) as [n|e] eqn:Hn.
      2:{ rewrite (apply_controls_bad_steer speed steer direction e self Hn) in H.
          discriminate. }
      destruct (Py.int (abs speed)) as [u|e] eqn:Hu.
      2:{ rewrite (apply_controls_bad_speed speed steer direction n e self Hn Hu) in H.
          discriminate. }
      destruct (handled_dec direction) as [Hd | (H1 & H2 & H3)].
      * split; [exact Hd|]. split.
        -- apply int_returns_iff. now exists n.
        -- rewrite <- is_finite_abs. apply int_returns_iff. now exists u.
      * rewrite (apply_controls_unhandled speed steer direction n u self Hn Hu H1 H2 H3) in H.
        discriminate.
    + intros (Hd & Hs & Hv).
      destruct (int_finite steer Hs) as [n Hn].
      rewrite <- is_finite_abs in Hv. destruct (int_finite (abs speed) Hv) as [u Hu].
      now rewrite (apply_controls_run speed steer direction n u self Hn Hu Hd).
  - intros e H.
    destruct (apply_controls_cases speed steer direction self)
      as [[e' E] | (n & u & _ & _ & _ & E)]; rewrite E in *.
    + reflexivity.
    + discriminate.
Qed.

(** What is raised: [ValueError] for a NaN and [OverflowError] for an
    infinite [steer], then the same for [speed], and [AttributeError] for
    a direction other than 1, -1 and 0. *)
Theorem apply_controls_exceptions (speed steer : float) (direction : Z) self :
  (is_nan steer = true ->
   apply_controls speed steer direction self = (Raise ValueError, self))
  /\ (is_infinity steer = true ->
      apply_controls speed steer direction self = (Raise OverflowError, self))
  /\ (is_finite steer = true -> is_nan speed = true ->
      apply_controls speed steer direction self = (Raise ValueError, self))
  /\ (is_finite steer = true -> is_infinity speed = true ->
      apply_controls speed steer direction self = (Raise OverflowError, self))
  /\ (is_finite steer = true -> is_finite speed = true ->
      direction <> 1%Z -> direction <> (-1)%Z -> direction <> 0%Z ->
      apply_controls speed steer direction self
      = (Raise (AttributeError "PicarHardwareInterface" "halt"), self)).
Proof.
  repeat split.
  - intros H. apply apply_controls_bad_steer, int_nan, H.
  - intros H. apply apply_controls_bad_steer, int_infinity, H.
  - intros Hs H. destruct (int_finite steer Hs) as [n Hn].
    apply apply_controls_bad_speed with n; [exact Hn|].
    apply int_nan. now rewrite is_nan_abs.
  - intros Hs H. destruct (int_finite steer Hs) as [n Hn].
    apply apply_controls_bad_speed with n; [exact Hn|].
    apply int_infinity. now rewrite is_infinity_abs.
  - intros Hs Hv H1 H2 H3. destruct (int_finite steer Hs) as [n Hn].
    rewrite <- is_finite_abs in Hv. destruct (int_finite (abs speed) Hv) as [u Hu].
    now apply apply_controls_unhandled with n u.
Qed.

(** The sign of [speed] has no effect. *)
Theorem apply_controls_speed_sign (speed steer : float) (direction : Z) self :
  apply_controls (- speed) steer direction self
  = apply_controls speed steer direction self.
Proof. unfold apply_controls. now rewrite abs_opp. Qed.

Lemma in_direction_calls (direction : Z) (c : call) :
  In c (direction_calls direction) -> c = bw_forward \/ c = bw_backward.
Proof.
  unfold direction_calls.
  destruct (direction =? 1)%Z; [|destruct (direction =? -1)%Z]; cbn;
    intuition (subst; auto).
Qed.

Lemma in_steering_calls (steer straight_angle : float) (c : call) :
  In c (steering_calls steer straight_angle) ->
  is_steering c = true \/ exists secs, c = slept secs.
Proof.
  unfold steering_calls. destruct (steer =? 0); cbn; intros H;
    repeat (destruct H as [<- | H]; [first [now left | right; now eexists]|]);
    contradiction.
Qed.

(** A speed is assigned to the back wheels only as a positive integer,
    and it is [int(abs(speed))]. *)
Theorem apply_controls_speed_positive (speed steer : float) (direction : Z) self :
  exists new,
    calls (snd (apply_controls speed steer direction self)) = self.(calls) ++ new
    /\ forall v : Z, In (bw_speed v) new -> (0 < v)%Z /\ Py.int (abs speed) = Ok v.
Proof.
  destruct (apply_controls_cases speed steer direction self)
    as [[e E] | (n & u & _ & Hu & _ & E)]; rewrite E; cbn [snd calls].
  - exists []. split; [now rewrite app_nil_r | intros v []].
  - eexists. split; [reflexivity|].
    intros v Hin. apply in_app_or in Hin as [Hin | Hin].
    { apply in_direction_calls in Hin as [Hin | Hin]; discriminate. }
    apply in_app_or in Hin as [Hin | Hin].
    { apply in_steering_calls in Hin as [Hin | [secs Hin]]; discriminate. }
    unfold speed_calls in Hin. destruct (u =? 0)%Z eqn:Z0.
    + destruct Hin as [Hin | []]. discriminate.
    + destruct Hin as [Hin | []]. injection Hin as <-.
      pose proof (int_abs_nonneg speed u Hu). apply Z.eqb_neq in Z0.
      split; [lia | exact Hu].
Qed.

(** With finite arguments and a handled direction, the drive direction is
    set first and at most once: [forward] for 1, [backward] for -1, and no
    direction call at all for 0. *)
Theorem apply_controls_direction_first (speed steer : float) (direction : Z) self :
  handled direction ->
  is_finite steer = true ->
  is_finite speed = true ->
  exists rest,
    count is_set_direction rest = 0%nat
    /\ (direction = 1%Z ->
        calls (snd (apply_controls speed steer direction self))
        = self.(calls) ++ bw_forward :: rest)
    /\ (direction = (-1)%Z ->
        calls (snd (apply_controls speed steer direction self))
        = self.(calls) ++ bw_backward :: rest)
    /\ (direction = 0%Z ->
        calls (snd (apply_controls speed steer direction self))
        = self.(calls) ++ rest).
Proof.
  intros Hd Hs Hv.
  destruct (int_finite steer Hs) as [n Hn].
  rewrite <- is_finite_abs in Hv. destruct (int_finite (abs speed) Hv) as [u Hu].
  rewrite (apply_controls_run speed steer direction n u self Hn Hu Hd).
  cbn [snd calls].
  exists (steering_calls steer self.(_straight_angle) ++ speed_calls u).
  split.
  - rewrite count_app. unfold steering_calls, speed_calls.
    destruct (steer =? 0), (u =? 0)%Z; reflexivity.
  - repeat split; intros ->; reflexivity.
Qed.

End ApplyControlsOutcomes.

(* ===================================================================== *)
(** * Further properties of the interface as a whole                      *)
(* ===================================================================== *)

Section InterfaceInvariant.

Import Hardware Caller.

Context {P : Platform}.

Local Open Scope float_scope.

Implicit Type self : PicarHardwareInterface.


(** What one call, of any method and with any arguments, keeps. *)
Lemma invoke_keeps (c : method_call) self :
  _straight_angle (snd (invoke c self)) = self.(_straight_angle)
  /\ (unset_or_zero self.(_steering) -> unset_or_zero (_steering (snd (invoke c self))))
  /\ (unset_or_zero self.(_speed) -> unset_or_zero (_speed (snd (invoke c self))))
  /\ exists new, calls (snd (invoke c self)) = self.(calls) ++ new.
Proof.
  destruct c as [steer | overshoot delay | | speed steer direction]; cbn [invoke].
  - rewrite turn_wheels_run. cbn. repeat split; try tauto. now eexists.
  - destruct (turn_wheels_straight_cases overshoot delay self) as [E | [[e E] | [e E]]];
      rewrite E; cbn; repeat split; try tauto;
      [intros _; now right | now eexists ..].
  - rewrite stop_motors_run. cbn.
    repeat split; try tauto; [intros _; now right | now eexists].
  - destruct (apply_controls_cases speed steer direction self)
      as [[e E] | (n & u & _ & _ & _ & E)]; rewrite E; cbn.
    + repeat split; try tauto. exists []. now rewrite app_nil_r.
    + repeat split.
      * destruct (steer =? 0); [intros _; now right | tauto].
      * destruct (u =? 0)%Z; [intros _; now right | tauto].
      * now eexists.
Qed.

Lemma after_keeps (cs : list method_call) self :
  _straight_angle (after cs self) = self.(_straight_angle)
  /\ (unset_or_zero self.(_steering) -> unset_or_zero (_steering (after cs self)))
  /\ (unset_or_zero self.(_speed) -> unset_or_zero (_speed (after cs self)))
  /\ exists new, calls (after cs self) = self.(calls) ++ new.
Proof.
  revert self. induction cs as [|c cs IH]; intros self; cbn [after].
  - repeat split; try tauto. exists []. now rewrite app_nil_r.
  - destruct (invoke_keeps c self) as (A1 & S1 & V1 & new1 & C1).
    destruct (IH (snd (invoke c self))) as (A2 & S2 & V2 & new2 & C2).
    repeat split.
    + congruence.
    + tauto.
    + tauto.
    + exists (new1 ++ new2). rewrite C2, C1. now rewrite app_assoc.
Qed.

(** Whatever methods are called on an interface after its construction,
    with whatever arguments and whether or not they raise: the straight
    angle is the one it was built with; [_steering] and [_speed] are unset
    or 0 (the angle and speed last applied are not recorded); and the
    calls made by the constructor, ending with [forward], stay the first
    ones. *)
Theorem interface_invariant (straight_angle : float) (max_turn : Z)
  (cs : list method_call) :
  _straight_angle (after cs (__init__ straight_angle max_turn)) = straight_angle
  /\ unset_or_zero (_steering (after cs (__init__ straight_angle max_turn)))
  /\ unset_or_zero (_speed (after cs (__init__ straight_angle max_turn)))
  /\ exists new,
       calls (after cs (__init__ straight_angle max_turn))
       = [fw_max_turn max_turn; fw_ready; bw_ready; bw_forward] ++ new.
Proof.
  destruct (after_keeps cs (__init__ straight_angle max_turn)) as (A & S & V & new & C).
  repeat split.
  - exact A.
  - apply S. now left.
  - apply V. now left.
  - now exists new.
Qed.

End InterfaceInvariant.

(* ===================================================================== *)
(** * Further properties of [MyPicarController]                           *)
(* ===================================================================== *)

Section ControllerLoops.

Import Controller.

Variable myPID : Type.
Variable pid_input : float -> float -> M myPID float.
Variable atan : float -> float.
Variable within_pi : float -> result float.

Local Open Scope float_scope.

(** The sign of [speed] has no effect on [STEER]. *)
Theorem STEER_speed_sign (self : MyPicarController myPID)
  (speed alpha beta L dt : float) :
  STEER pid_input atan within_pi (- speed) alpha beta L dt self
  = STEER pid_input atan within_pi speed alpha beta L dt self.
Proof. unfold STEER. now rewrite abs_opp. Qed.

(** [DIRECTION] does not depend on the sign of [alpha]. *)
Theorem DIRECTION_symmetric (self : MyPicarController myPID) (alpha dt : float) :
  DIRECTION (- alpha) dt self = DIRECTION alpha dt self.
Proof. unfold DIRECTION. now rewrite abs_opp. Qed.

(** [pi/2] and the threshold [pi/2 + 1e-4], as binary64 numbers. *)
Lemma half_pi_SF :
  Prim2SF (pi / 2) = S754_finite false 7074237752028440 (-52).
Proof. vm_compute. reflexivity. Qed.

Lemma threshold_SF :
  Prim2SF (pi / 2 + 1e-4) = S754_finite false 7074688111991177 (-52).
Proof. vm_compute. reflexivity. Qed.

(** No float is at most [pi/2] and above the threshold. *)
Lemma below_half_pi_not_above_threshold (x : float) :
  (x <=? pi / 2) = true -> (pi / 2 + 1e-4 <? x) = false.
Proof.
  rewrite leb_spec, ltb_spec, half_pi_SF, threshold_SF.
  destruct (Prim2SF x) as [s|s| |s m e]; try reflexivity.
  - destruct s; [reflexivity | discriminate].
  - destruct s; [reflexivity|].
    unfold SFleb, SFltb, SFcompare.
    rewrite (Z.compare_antisym e (-52)%Z).
    destruct (Z.compare e (-52)%Z); cbn [CompOpp]; try reflexivity; try discriminate.
    destruct (Pos.compare_cont Eq m 7074237752028440) eqn:C; try discriminate.
    + apply Pos.compare_eq in C. subst m. intros _. reflexivity.
    + intros _.
      assert (L1 : (m < 7074237752028440)%positive) by exact C.
      assert (L2 : (7074237752028440 < 7074688111991177)%positive) by reflexivity.
      pose proof (Pos.lt_trans _ _ _ L1 L2) as L3.
      destruct (Pos.compare_cont Eq 7074688111991177 m) eqn:D; try reflexivity.
      assert (L4 : (7074688111991177 < m)%positive) by exact D.
      exfalso. exact (Pos.lt_irrefl _ (Pos.lt_trans _ _ _ L3 L4)).
Qed.

(** [DIRECTION] prefers forward motion for every heading error of at most
    a right angle, [|alpha| <= pi/2], and for a NaN. *)
Theorem DIRECTION_forward (self : MyPicarController myPID) (alpha dt : float) :
  ((abs alpha <=? pi / 2) = true -> DIRECTION alpha dt self = (Ok false, self))
  /\ (is_nan alpha = true -> DIRECTION alpha dt self = (Ok false, self)).
Proof.
  split; intros H; unfold DIRECTION.
  - now rewrite (below_half_pi_not_above_threshold (abs alpha) H).
  - rewrite ltb_spec, abs_spec.
    destruct (float_cases alpha) as [(_ & _ & E) | [(N & _) | (N & _)]];
      [now rewrite E | congruence | congruence].
Qed.

End ControllerLoops.

(* ===================================================================== *)
(** * The loops of [MyPicarController] as shared objects                  *)
(* ===================================================================== *)

Section SharedLoops.

Import Shared.

Variable myPID : Type.
Variable new_myPID : forall (Kp Ki Kd : float), myPID.
Variable pid_input : float -> float -> M myPID float.
Variable atan : float -> float.
Variable within_pi : float -> result float.

Local Open Scope float_scope.

Implicit Type h : heap myPID.
Implicit Type self : MyPicarController.
Implicit Types p q : ref.

Lemma store_same p (state : myPID) (f : ref -> myPID) : store p state f p = state.
Proof. unfold store. now rewrite Nat.eqb_refl. Qed.

Lemma store_other p q (state : myPID) (f : ref -> myPID) :
  Nat.eqb q p = false -> store p state f q = f q.
Proof. unfold store. now intros ->. Qed.

Ltac store_simpl :=
  repeat first [rewrite store_same | rewrite store_other by assumption].

Lemma input_run p (error dt : float) h :
  input pid_input p error dt h
  = (fst (pid_input error dt (objects h p)),
     {| objects := store p (snd (pid_input error dt (objects h p))) (objects h);
        next := next h |}).
Proof. unfold input. now destruct (pid_input error dt (objects h p)). Qed.

(** The store after [STEER] is the store after its PID calls. *)
Lemma STEER_store self (speed alpha beta L dt : float) h :
  snd (STEER pid_input atan within_pi self speed alpha beta L dt h)
  = match fst (input pid_input (alpha_controller self) alpha dt h) with
    | Ok _ => snd (input pid_input (beta_controller self) beta dt
                     (snd (input pid_input (alpha_controller self) alpha dt h)))
    | Raise _ => snd (input pid_input (alpha_controller self) alpha dt h)
    end.
Proof.
  unfold STEER, bind, lift.
  destruct (input pid_input (alpha_controller self) alpha dt h) as [[a|e] h1]; cbn [fst snd].
  - destruct (input pid_input (beta_controller self) beta dt h1) as [[b|e] h2]; cbn [fst snd].
    + now destruct (truediv ((a + b) * L) (abs speed)).
    + reflexivity.
  - reflexivity.
Qed.

(** The loops are reached through the addresses the controller holds.
    [SPEED] runs the object at [rho_controller] and returns what it
    returns.  [STEER] gives out no address and leaves alone every object
    but those at [alpha_controller] and [beta_controller].  When these two
    are different objects, the first has run once on [alpha], and the
    second once on [beta] if the first returned.  When they are one
    object, it has run twice, the second time on [beta] from the state the
    first call left. *)
Theorem loops_by_reference self h (rho speed alpha beta L dt : float) :
  SPEED pid_input self rho dt h
  = (fst (pid_input rho dt (objects h (rho_controller self))),
     {| objects := store (rho_controller self)
                     (snd (pid_input rho dt (objects h (rho_controller self))))
                     (objects h);
        next := next h |})
  /\ next (snd (STEER pid_input atan within_pi self speed alpha beta L dt h)) = next h
  /\ (forall p,
        Nat.eqb p (alpha_controller self) = false ->
        Nat.eqb p (beta_controller self) = false ->
        objects (snd (STEER pid_input atan within_pi self speed alpha beta L dt h)) p
        = objects h p)
  /\ (Nat.eqb (alpha_controller self) (beta_controller self) = false ->
      objects (snd (STEER pid_input atan within_pi self speed alpha beta L dt h))
        (alpha_controller self)
      = snd (pid_input alpha dt (objects h (alpha_controller self)))
      /\ objects (snd (STEER pid_input atan within_pi self speed alpha beta L dt h))
           (beta_controller self)
         = match fst (pid_input alpha dt (objects h (alpha_controller self))) with
           | Ok _ => snd (pid_input beta dt (objects h (beta_controller self)))
           | Raise _ => objects h (beta_controller self)
           end)
  /\ (alpha_controller self = beta_controller self ->
      objects (snd (STEER pid_input atan within_pi self speed alpha beta L dt h))
        (alpha_controller self)
      = match fst (pid_input alpha dt (objects h (alpha_controller self))) with
        | Ok _ => snd (pid_input beta dt
                         (snd (pid_input alpha dt (objects h (alpha_controller self)))))
        | Raise _ => snd (pid_input alpha dt (objects h (alpha_controller self)))
        end).
Proof.
  split; [apply input_run|].
  rewrite STEER_store, !input_run. cbn [fst snd objects next].
  split; [now destruct (fst (pid_input alpha dt (objects h (alpha_controller self))))|].
  split; [|split].
  - intros p Ha Hb.
    destruct (fst (pid_input alpha dt (objects h (alpha_controller self))));
      cbn [objects]; now rewrite ?(store_other _ _ _ _ Hb), (store_other _ _ _ _ Ha).
  - intros Hab.
    assert (Hba : Nat.eqb (beta_controller self) (alpha_controller self) = false)
      by now rewrite Nat.eqb_sym.
    destruct (fst (pid_input alpha dt (objects h (alpha_controller self))));
      cbn [objects]; split;
      now rewrite ?(store_other _ _ _ _ Hab), ?store_same, ?(store_other _ _ _ _ Hba).
  - intros <-.
    destruct (fst (pid_input alpha dt (objects h (alpha_controller self))));
      cbn [objects]; now rewrite !store_same.
Qed.

(** The constructor keeps the objects it is given and makes the others.
    [MyPicarController()] makes three loops at the next three addresses,
    with the gains of each role, so its loops are three objects;
    [MyPicarController(rho_controller=p)] keeps [p] and makes two.  A loop
    given for both [alpha_controller] and [beta_controller] is held
    twice.  With the three loops given, they are stored as they come and
    the store is as it was.  In every case the objects that were there are
    as they were. *)
Theorem init_stores_references h (kpr kpa kpb kdr kda kdb kir kia kib : float) :
  __init__ new_myPID None None None kpr kpa kpb kdr kda kdb kir kia kib h
  = (Ok {| rho_controller := next h;
           alpha_controller := S (next h);
           beta_controller := S (S (next h)) |},
     {| objects := store (S (S (next h))) (new_myPID kpb kib kdb)
                     (store (S (next h)) (new_myPID kpa kia kda)
                        (store (next h) (new_myPID kpr kir kdr) (objects h)));
        next := S (S (S (next h))) |})
  /\ separate {| rho_controller := next h;
                 alpha_controller := S (next h);
                 beta_controller := S (S (next h)) |} = true
  /\ (forall p,
        __init__ new_myPID (Some p) None None kpr kpa kpb kdr kda kdb kir kia kib h
        = (Ok {| rho_controller := p;
                 alpha_controller := next h;
                 beta_controller := S (next h) |},
           {| objects := store (S (next h)) (new_myPID kpb kib kdb)
                           (store (next h) (new_myPID kpa kia kda) (objects h));
              next := S (S (next h)) |})
        /\ (allocated h p = true ->
            separate {| rho_controller := p;
                        alpha_controller := next h;
                        beta_controller := S (next h) |} = true))
  /\ (forall p q r,
        __init__ new_myPID (Some p) (Some q) (Some r) kpr kpa kpb kdr kda kdb kir kia kib h
        = (Ok {| rho_controller := p; alpha_controller := q; beta_controller := r |}, h))
  /\ (forall (rho : option ref) q,
        fst (__init__ new_myPID rho (Some q) (Some q)
               kpr kpa kpb kdr kda kdb kir kia kib h)
        = Ok {| rho_controller := match rho with Some p => p | None => next h end;
                alpha_controller := q;
                beta_controller := q |}
        /\ separate {| rho_controller := match rho with Some p => p | None => next h end;
                       alpha_controller := q;
                       beta_controller := q |} = false)
  /\ (forall (rho alpha beta : option ref) p,
        allocated h p = true ->
        objects (snd (__init__ new_myPID rho alpha beta
                        kpr kpa kpb kdr kda kdb kir kia kib h)) p
        = objects h p).
Proof.
  split; [reflexivity|].
  split.
  { unfold separate. cbn [rho_controller alpha_controller beta_controller].
    rewrite !Bool.andb_true_iff, !Bool.negb_true_iff, !Nat.eqb_neq. lia. }
  split.
  { intros p. split; [reflexivity|].
    unfold allocated, separate. cbn [rho_controller alpha_controller beta_controller].
    rewrite Nat.ltb_lt, !Bool.andb_true_iff, !Bool.negb_true_iff, !Nat.eqb_neq. lia. }
  split; [reflexivity|].
  split.
  { intros rho q. split; [now destruct rho|].
    unfold separate. cbn [rho_controller alpha_controller beta_controller].
    rewrite (Nat.eqb_refl q). now rewrite Bool.andb_false_r. }
  intros rho alpha beta p Hp. unfold allocated in Hp. apply Nat.ltb_lt in Hp.
  assert (S0 : forall n (state : myPID) (f : ref -> myPID),
             (next h <= n)%nat -> store n state f p = f p).
  { intros n state f Hn. apply store_other. apply Nat.eqb_neq. lia. }
  destruct rho, alpha, beta; cbn; rewrite ?S0 by lia; reflexivity.
Qed.

(** With three separate loops the controller behaves as the record of its
    three loops does: the same results, and the same three states
    after. *)
Theorem separate_loops_agree self h (rho speed alpha beta L dt : float) :
  separate self = true ->
  fst (SPEED pid_input self rho dt h)
  = fst (Controller.SPEED pid_input rho dt (loops self h))
  /\ loops self (snd (SPEED pid_input self rho dt h))
     = snd (Controller.SPEED pid_input rho dt (loops self h))
  /\ fst (STEER pid_input atan within_pi self speed alpha beta L dt h)
     = fst (Controller.STEER pid_input atan within_pi speed alpha beta L dt (loops self h))
  /\ loops self (snd (STEER pid_input atan within_pi self speed alpha beta L dt h))
     = snd (Controller.STEER pid_input atan within_pi speed alpha beta L dt (loops self h))
  /\ DIRECTION self alpha dt h
     = (fst (Controller.DIRECTION alpha dt (loops self h)), h).
Proof.
  unfold separate. rewrite !Bool.andb_true_iff, !Bool.negb_true_iff.
  intros [[Hra Hrb] Hab].
  assert (Har : Nat.eqb (alpha_controller self) (rho_controller self) = false)
    by now rewrite Nat.eqb_sym.
  assert (Hbr : Nat.eqb (beta_controller self) (rho_controller self) = false)
    by now rewrite Nat.eqb_sym.
  assert (Hba : Nat.eqb (beta_controller self) (alpha_controller self) = false)
    by now rewrite Nat.eqb_sym.
  split; [|split; [|split; [|split]]].
  - unfold SPEED, Controller.SPEED, Controller.on_rho, input, loops.
    cbn [Controller.rho_controller].
    now destruct (pid_input rho dt (objects h (rho_controller self))).
  - unfold SPEED, Controller.SPEED, Controller.on_rho, input, loops.
    cbn [Controller.rho_controller Controller.alpha_controller Controller.beta_controller].
    destruct (pid_input rho dt (objects h (rho_controller self))) as [r state].
    cbn [snd objects]. now store_simpl.
  - unfold STEER, Controller.STEER, bind, lift, Controller.on_alpha, Controller.on_beta,
      input, loops.
    cbn [Controller.rho_controller Controller.alpha_controller Controller.beta_controller].
    destruct (pid_input alpha dt (objects h (alpha_controller self))) as [[a|e] pa];
      cbn [fst snd objects Controller.beta_controller]; [|reflexivity].
    rewrite (store_other _ _ _ _ Hba).
    destruct (pid_input beta dt (objects h (beta_controller self))) as [[b|e] pb];
      cbn [fst snd]; [|reflexivity].
    now destruct (truediv ((a + b) * L) (abs speed)).
  - unfold STEER, Controller.STEER, bind, lift, Controller.on_alpha, Controller.on_beta,
      input, loops.
    cbn [Controller.rho_controller Controller.alpha_controller Controller.beta_controller].
    destruct (pid_input alpha dt (objects h (alpha_controller self))) as [[a|e] pa];
      cbn [fst snd objects next Controller.rho_controller Controller.alpha_controller
             Controller.beta_controller].
    + rewrite (store_other _ _ _ _ Hba).
      destruct (pid_input beta dt (objects h (beta_controller self))) as [[b|e] pb];
        cbn [fst snd objects next].
      * destruct (truediv ((a + b) * L) (abs speed)); cbn [fst snd objects next];
          now store_simpl.
      * now store_simpl.
    + now store_simpl.
  - unfold DIRECTION, Controller.DIRECTION.
    now destruct (pi / 2 + 1e-4 <? abs alpha).
Qed.


End SharedLoops.

(* ===================================================================== *)
(** * Further properties of [PicarUnitConverter]                          *)
(* ===================================================================== *)

Section ConverterErrors.

Import Converter.

Local Open Scope float_scope.

(** On floats, for every input (NaN and the infinities included): the
    conversions to world units return, and each conversion to picar units
    raises [ZeroDivisionError] exactly when its scale is [0.0] or [-0.0],
    and returns otherwise. *)
Theorem conversions_raise_iff_zero_scale (self : PicarUnitConverter float) (x : float) :
  (exists w, speed_picar2world self x = Ok w)
  /\ (exists w, angle_picar2world self x = Ok w)
  /\ (exists w, time_picar2world self x = Ok w)
  /\ (speed_world2picar self x = Raise ZeroDivisionError
      <-> (self.(world_speed_scale) =? 0) = true)
  /\ (angle_world2picar self x = Raise ZeroDivisionError
      <-> (self.(world_angle_scale) =? 0) = true)
  /\ (time_world2picar self x = Raise ZeroDivisionError
      <-> (self.(world_time_scale) =? 0) = true)
  /\ ((exists p, speed_world2picar self x = Ok p)
      <-> (self.(world_speed_scale) =? 0) = false)
  /\ ((exists p, angle_world2picar self x = Ok p)
      <-> (self.(world_angle_scale) =? 0) = false)
  /\ ((exists p, time_world2picar self x = Ok p)
      <-> (self.(world_time_scale) =? 0) = false).
Proof.
  unfold speed_picar2world, angle_picar2world, time_picar2world,
    speed_world2picar, angle_world2picar, time_world2picar.
  cbn [div float_Number]. unfold truediv.
  split; [now eexists|]. split; [now eexists|]. split; [now eexists|].
  destruct (self.(world_speed_scale) =? 0),
           (self.(world_angle_scale) =? 0),
           (self.(world_time_scale) =? 0);
    repeat split; intros H; try reflexivity; try discriminate;
    try (now eexists); try (destruct H; discriminate).
Qed.

End ConverterErrors.

Section ConverterAlgebra.

Import Converter.

Variable self : PicarUnitConverter Q.

Local Open Scope Q_scope.

(** In exact arithmetic the conversions to world units are affine: a
    difference of two speeds (or angles) is scaled by the slope, the
    offset cancelling; the time conversion, which has no offset, is
    additive. *)
Theorem conversions_are_affine (x y : Q) :
  (exists wx wy,
     speed_picar2world self x = Ok wx /\ speed_picar2world self y = Ok wy
     /\ wx - wy == self.(world_speed_scale) * (x - y))
  /\ (exists wx wy,
        angle_picar2world self x = Ok wx /\ angle_picar2world self y = Ok wy
        /\ wx - wy == self.(world_angle_scale) * (x - y))
  /\ (exists tx ty txy,
        time_picar2world self x = Ok tx /\ time_picar2world self y = Ok ty
        /\ time_picar2world self (x + y) = Ok txy
        /\ txy == tx + ty).
Proof.
  unfold speed_picar2world, angle_picar2world, time_picar2world.
  cbn [add sub mul Fraction_Number].
  split; [|split].
  - do 2 eexists. split; [reflexivity|]. split; [reflexivity|]. ring.
  - do 2 eexists. split; [reflexivity|]. split; [reflexivity|]. ring.
  - do 3 eexists. split; [reflexivity|]. split; [reflexivity|].
    split; [reflexivity|]. ring.
Qed.

(** In exact arithmetic a positive speed scale keeps the order of two
    speeds and a negative one reverses it. *)
Theorem speed_conversion_monotone (x y : Q) :
  x < y ->
  exists wx wy,
    speed_picar2world self x = Ok wx /\ speed_picar2world self y = Ok wy
    /\ (0 < self.(world_speed_scale) -> wx < wy)
    /\ (self.(world_speed_scale) < 0 -> wy < wx).
Proof.
  intros Hxy.
  unfold speed_picar2world. cbn [add sub mul Fraction_Number].
  do 2 eexists. split; [reflexivity|]. split; [reflexivity|].
  split; intros Hs.
  - apply Qplus_lt_l. apply Qmult_lt_l; assumption.
  - apply Qplus_lt_l.
    setoid_replace (self.(world_speed_scale) * y)
      with (- ((- self.(world_speed_scale)) * y)) by ring.
    setoid_replace (self.(world_speed_scale) * x)
      with (- ((- self.(world_speed_scale)) * x)) by ring.
    apply Qopp_lt_compat. apply Qmult_lt_l; [|assumption].
    setoid_replace 0 with (- 0) by ring. apply Qopp_lt_compat. assumption.
Qed.

End ConverterAlgebra.

(* ===================================================================== *)
(** * Further properties: runs on concrete inputs                         *)
(* ===================================================================== *)

Lemma apply_controls_all_or_nothing_witness :
  fst (Hardware.apply_controls 3 0 7 sample_interface)
  = Raise (AttributeError "PicarHardwareInterface" "halt")
  /\ snd (Hardware.apply_controls 3 0 7 sample_interface) = sample_interface.
Proof.
  split; [vm_compute; reflexivity|].
  apply (proj2 (apply_controls_all_or_nothing 3%float 0%float 7%Z sample_interface)
           (AttributeError "PicarHardwareInterface" "halt")).
  vm_compute; reflexivity.
Defined.

Lemma apply_controls_exceptions_witness :
  Hardware.apply_controls 1 nan 1 sample_interface = (Raise ValueError, sample_interface)
  /\ Hardware.apply_controls 1 neg_infinity 1 sample_interface
     = (Raise OverflowError, sample_interface)
  /\ Hardware.apply_controls nan 5 1 sample_interface = (Raise ValueError, sample_interface)
  /\ Hardware.apply_controls infinity 5 1 sample_interface
     = (Raise OverflowError, sample_interface)
  /\ Hardware.apply_controls 3 5 2 sample_interface
     = (Raise (AttributeError "PicarHardwareInterface" "halt"), sample_interface).
Proof.
  split; [|split; [|split; [|split]]].
  - apply (proj1 (apply_controls_exceptions 1%float nan 1%Z sample_interface)).
    vm_compute; reflexivity.
  - apply (proj1 (proj2
             (apply_controls_exceptions 1%float neg_infinity 1%Z sample_interface))).
    vm_compute; reflexivity.
  - apply (proj1 (proj2 (proj2
             (apply_controls_exceptions nan 5%float 1%Z sample_interface))));
      vm_compute; reflexivity.
  - apply (proj1 (proj2 (proj2 (proj2
             (apply_controls_exceptions infinity 5%float 1%Z sample_interface)))));
      vm_compute; reflexivity.
  - apply (proj2 (proj2 (proj2 (proj2
             (apply_controls_exceptions 3%float 5%float 2%Z sample_interface)))));
      try (vm_compute; reflexivity); discriminate.
Defined.

Lemma apply_controls_direction_first_witness :
  Hardware.handled (-1)
  /\ is_finite 5 = true
  /\ is_finite 1 = true
  /\ exists rest,
       Hardware.count Hardware.is_set_direction rest = 0%nat
       /\ ((-1)%Z = 1%Z ->
           Hardware.calls (snd (Hardware.apply_controls 1 5 (-1) sample_interface))
           = Hardware.calls sample_interface ++ Hardware.bw_forward :: rest)
       /\ ((-1)%Z = (-1)%Z ->
           Hardware.calls (snd (Hardware.apply_controls 1 5 (-1) sample_interface))
           = Hardware.calls sample_interface ++ Hardware.bw_backward :: rest)
       /\ ((-1)%Z = 0%Z ->
           Hardware.calls (snd (Hardware.apply_controls 1 5 (-1) sample_interface))
           = Hardware.calls sample_interface ++ rest).
Proof.
  assert (Hd : Hardware.handled (-1)) by (right; left; reflexivity).
  split; [exact Hd|].
  split; [vm_compute; reflexivity|].
  split; [vm_compute; reflexivity|].
  apply (apply_controls_direction_first 1%float 5%float (-1)%Z sample_interface Hd);
    vm_compute; reflexivity.
Defined.


Lemma DIRECTION_forward_witness :
  (abs (-1.5) <=? pi / 2)%float = true
  /\ Controller.DIRECTION (-1.5) 1 sample_controller = (Ok false, sample_controller)
  /\ Controller.DIRECTION nan 1 sample_controller = (Ok false, sample_controller).
Proof.
  split; [vm_compute; reflexivity|]. split.
  - apply (proj1 (DIRECTION_forward SpecPID.myPID sample_controller (-1.5)%float 1%float)).
    vm_compute; reflexivity.
  - apply (proj2 (DIRECTION_forward SpecPID.myPID sample_controller nan 1%float)).
    vm_compute; reflexivity.
Defined.

Lemma speed_conversion_monotone_witness :
  (1#2 < 1)%Q
  /\ exists wx wy,
       Converter.speed_picar2world sample_converter_Q (1#2) = Ok wx
       /\ Converter.speed_picar2world sample_converter_Q 1 = Ok wy
       /\ ((0 < Converter.world_speed_scale sample_converter_Q)%Q -> (wx < wy)%Q)
       /\ ((Converter.world_speed_scale sample_converter_Q < 0)%Q -> (wy < wx)%Q).
Proof.
  split; [reflexivity|].
  apply (speed_conversion_monotone sample_converter_Q (1#2) 1). reflexivity.
Defined.

Lemma loops_by_reference_witness :
  Shared.objects
    (snd (Shared.STEER SpecPID.input atan_unreached within_pi_unreached
            shared_controller 0 (pi / 2) (- pi / 4) 2 1 shared_heap)%float) 0%nat
  = ({| SpecPID.Kp := 1; SpecPID.Ki := 2; SpecPID.Kd := 3;
        SpecPID.integral_accum := pi / 4;
        SpecPID.prev_error := - pi / 4 |})%float.
Proof.
  etransitivity.
  - apply (proj2 (proj2 (proj2 (proj2
             (loops_by_reference SpecPID.myPID SpecPID.input
                atan_unreached within_pi_unreached shared_controller shared_heap
                0 0 (pi / 2) (- pi / 4) 2 1)%float)))).
    reflexivity.
  - vm_compute; reflexivity.
Defined.

Lemma init_stores_references_witness :
  fst ((Shared.__init__ SpecPID.new_myPID None None None 1 0 0 0 0 0 0 0 0)%float
         empty_heap)
  = Ok default_controller
  /\ Shared.loops default_controller default_heap = sample_controller
  /\ fst ((Shared.__init__ SpecPID.new_myPID None (Some 0%nat) (Some 0%nat)
             1 0 0 0 0 0 0 0 0)%float one_loop)
     = Ok shared_controller
  /\ Shared.separate shared_controller = false.
Proof.
  split; [|split; [vm_compute; reflexivity|]].
  - exact (f_equal fst
             (proj1 (init_stores_references SpecPID.myPID SpecPID.new_myPID empty_heap
                       1 0 0 0 0 0 0 0 0)%float)).
  - exact (proj1 (proj2 (proj2 (proj2 (proj2
             (init_stores_references SpecPID.myPID SpecPID.new_myPID one_loop
                1 0 0 0 0 0 0 0 0)%float)))) None 0%nat).
Defined.

Lemma separate_loops_agree_witness :
  Shared.separate default_controller = true
  /\ fst (Shared.STEER SpecPID.input atan_unreached within_pi_unreached
            default_controller 0 (pi / 2) (- pi / 4) 2 1 default_heap)%float
     = Raise ZeroDivisionError
  /\ Shared.loops default_controller
       (snd (Shared.STEER SpecPID.input atan_unreached within_pi_unreached
               default_controller 0 (pi / 2) (- pi / 4) 2 1 default_heap)%float)
     = snd (Controller.STEER SpecPID.input atan_unreached within_pi_unreached
              0 (pi / 2) (- pi / 4) 2 1 sample_controller)%float.
Proof.
  split; [reflexivity|]. split.
  - etransitivity.
    + apply (proj1 (proj2 (proj2
               (separate_loops_agree SpecPID.myPID SpecPID.input
                  atan_unreached within_pi_unreached default_controller default_heap
                  0 0 (pi / 2) (- pi / 4) 2 1 eq_refl)%float))).
    + vm_compute; reflexivity.
  - apply (proj1 (proj2 (proj2 (proj2
             (separate_loops_agree SpecPID.myPID SpecPID.input
                atan_unreached within_pi_unreached default_controller default_heap
                0 0 (pi / 2) (- pi / 4) 2 1 eq_refl)%float)))).
Defined.

